(** * Neuraxle REST adapters ([neuraxle/rest/flask.py])

    A shallow embedding of the REST layer of Neuraxle: the JSON codec
    contract ([JSONDataBodyDecoder], [JSONDataResponseEncoder]), the REST
    binder ([FlaskRestApiWrapper]), the remote-stage caller
    ([RestAPICaller]) and the HTTP client abstraction ([RequestWrapper],
    [UrllibRequestWrapper]).

    Python objects are values of [pyval]; a call that may raise returns a
    [result]; the calls that reach the network thread a [world] through a
    small state-and-error monad.  The libraries the module imports ([json],
    [numpy], [flask], [flask_restful], [urllib]) are modelled next to the
    code, each under a module of its own name. *)

From Stdlib Require Import List String Ascii ZArith NArith Bool Lia Zpow_facts.
From Stdlib.Strings Require Import Byte.
Import ListNotations.

Local Open Scope string_scope.
Local Open Scope list_scope.

(** ** Exceptions and results *)

(** The exceptions this layer raises itself or lets through.  [OutOfModel]
    is not a Python exception: it marks an input on which Python computes a
    value that [pyval] cannot represent (a float, text above U+00FF), so
    that the embedding says nothing about it. *)
Inductive exn : Type :=
| NotImplementedError (msg : string)
| AttributeError (attr : string)
| TypeError (msg : string)
| RuntimeError (msg : string)
| KeyError (key : string)
| IndexError
| JSONDecodeError
| URLError (reason : string)
| OtherException (cls msg : string)
| OutOfModel (what : string).

Inductive result (A : Type) : Type :=
| Ok (a : A)
| Raise (e : exn).
Arguments Ok {A} a.
Arguments Raise {A} e.

Definition bind {A B : Type} (r : result A) (k : A -> result B) : result B :=
  match r with
  | Ok a => k a
  | Raise e => Raise e
  end.

Declare Scope py_scope.
Delimit Scope py_scope with py.
Notation "x <- c ;; k" := (bind c (fun x => k))
  (at level 61, c at next level, right associativity) : py_scope.
Notation "' pat <- c ;; k" := (bind c (fun pat => k))
  (at level 61, pat pattern, c at next level, right associativity) : py_scope.
Local Open Scope py_scope.

(** ** Python values *)

(** The objects that travel through this layer.  A [str] is a [string]
    whose characters are the code points U+0000..U+00FF; a [dict] has [str]
    keys and keeps insertion order; an [ndarray] is a shape with its items
    in row-major order. *)
Local Unset Elimination Schemes.
Inductive pyval : Type :=
| PyNone
| PyBool (b : bool)
| PyInt (z : Z)
| PyStr (s : string)
| PyList (items : list pyval)
| PyDict (entries : list (string * pyval))
| PyArray (shape : list nat) (data : list pyval)
| PyResponse (payload : pyval).
Local Set Elimination Schemes.

Section PyvalInduction.
Variable P : pyval -> Prop.
Hypothesis HNone : P PyNone.
Hypothesis HBool : forall b, P (PyBool b).
Hypothesis HInt : forall z, P (PyInt z).
Hypothesis HStr : forall s, P (PyStr s).
Hypothesis HList : forall l, Forall P l -> P (PyList l).
Hypothesis HDict : forall d, Forall (fun kv => P (snd kv)) d -> P (PyDict d).
Hypothesis HArray : forall sh d, Forall P d -> P (PyArray sh d).
Hypothesis HResponse : forall v, P v -> P (PyResponse v).

Fixpoint pyval_nested_ind (v : pyval) : P v :=
  match v with
  | PyNone => HNone
  | PyBool b => HBool b
  | PyInt z => HInt z
  | PyStr s => HStr s
  | PyList l =>
      HList l ((fix go (l : list pyval) : Forall P l :=
                  match l with
                  | [] => Forall_nil P
                  | x :: tl => Forall_cons x (pyval_nested_ind x) (go tl)
                  end) l)
  | PyDict d =>
      HDict d ((fix go (d : list (string * pyval))
                  : Forall (fun kv => P (snd kv)) d :=
                  match d with
                  | [] => Forall_nil _
                  | kv :: tl =>
                      Forall_cons kv (pyval_nested_ind (snd kv)) (go tl)
                  end) d)
  | PyArray sh d =>
      HArray sh d ((fix go (l : list pyval) : Forall P l :=
                      match l with
                      | [] => Forall_nil P
                      | x :: tl => Forall_cons x (pyval_nested_ind x) (go tl)
                      end) d)
  | PyResponse v => HResponse v (pyval_nested_ind v)
  end.
End PyvalInduction.

(** [d[k]] for a [dict] held as its list of entries. *)
Fixpoint dict_get (d : list (string * pyval)) (k : string) : option pyval :=
  match d with
  | [] => None
  | (k', v) :: tl => if String.eqb k' k then Some v else dict_get tl k
  end.

(** [d[k] = v]: an existing key keeps its place, a new one goes last. *)
Fixpoint dict_set (d : list (string * pyval)) (k : string) (v : pyval)
  : list (string * pyval) :=
  match d with
  | [] => [(k, v)]
  | (k', v') :: tl =>
      if String.eqb k' k then (k', v) :: tl else (k', v') :: dict_set tl k v
  end.

(** [dict(pairs)]. *)
Definition dict_of_pairs (pairs : list (string * pyval))
  : list (string * pyval) :=
  fold_left (fun d kv => dict_set d (fst kv) (snd kv)) pairs [].

(** The subscript [obj[key]] with a [str] key: only a [dict] answers it. *)
Definition getitem (obj : pyval) (key : string) : result pyval :=
  match obj with
  | PyDict d =>
      match dict_get d key with
      | Some v => Ok v
      | None => Raise (KeyError key)
      end
  | PyArray _ _ => Raise IndexError
  | PyNone => Raise (TypeError "'NoneType' object is not subscriptable")
  | PyBool _ => Raise (TypeError "'bool' object is not subscriptable")
  | PyInt _ => Raise (TypeError "'int' object is not subscriptable")
  | PyStr _ => Raise (TypeError "string indices must be integers")
  | PyList _ =>
      Raise (TypeError "list indices must be integers or slices, not str")
  | PyResponse _ => Raise (TypeError "'Response' object is not subscriptable")
  end.

(** ** Text and bytes *)

Definition dquote : ascii := "034".
Definition backslash : ascii := "\".

Definition bytes := list byte.

(** [s.encode('utf8')]: a code point below U+0080 is one byte, the others
    of a [str] (up to U+00FF) two. *)
Definition utf8_of_char (c : ascii) : bytes :=
  let n := N_of_ascii c in
  if (n <? 128)%N then [byte_of_ascii c]
  else [byte_of_ascii (ascii_of_N (192 + n / 64));
        byte_of_ascii (ascii_of_N (128 + n mod 64))].

Fixpoint str_encode_utf8 (s : string) : bytes :=
  match s with
  | EmptyString => []
  | String c r => utf8_of_char c ++ str_encode_utf8 r
  end.

(** [b.decode('utf8')] on the sequences that encode U+0000..U+00FF; any
    other byte sequence, well formed or not, is left out. *)
Fixpoint bytes_decode_utf8 (b : bytes) : result string :=
  match b with
  | [] => Ok EmptyString
  | b1 :: r =>
      let n1 := Byte.to_N b1 in
      if (n1 <? 128)%N then
        s <- bytes_decode_utf8 r ;; Ok (String (ascii_of_byte b1) s)
      else if ((n1 =? 194) || (n1 =? 195))%N then
        match r with
        | b2 :: r' =>
            let n2 := Byte.to_N b2 in
            if ((128 <=? n2) && (n2 <? 192))%N then
              s <- bytes_decode_utf8 r' ;;
              Ok (String (ascii_of_N ((n1 - 192) * 64 + (n2 - 128))) s)
            else Raise (OutOfModel "utf-8")
        | [] => Raise (OutOfModel "utf-8")
        end
      else Raise (OutOfModel "utf-8")
  end.

(** ** The [json] library *)

Module json.
Local Open Scope string_scope.

(** *** [json.dumps] (default arguments: [ensure_ascii=True],
    separators [", "] and [": "], keys in insertion order) *)

Definition digit_char (d : N) : ascii := ascii_of_N (48 + d).

Fixpoint digits (fuel : nat) (n : N) : string :=
  match fuel with
  | O => EmptyString
  | S f =>
      if (n <? 10)%N then String (digit_char n) EmptyString
      else digits f (n / 10) ++ String (digit_char (n mod 10)) EmptyString
  end.

Definition str_of_N (n : N) : string := digits (N.size_nat n) n.

(** [str(z)] for an [int]. *)
Definition str_of_int (z : Z) : string :=
  match z with
  | Z0 => "0"
  | Zpos p => str_of_N (Npos p)
  | Zneg p => String "-" (str_of_N (Npos p))
  end.

Definition hex_char (d : N) : ascii :=
  if (d <? 10)%N then ascii_of_N (48 + d) else ascii_of_N (87 + d).

(** One character of [encode_basestring_ascii]. *)
Definition escape_char (c : ascii) : string :=
  let n := N_of_ascii c in
  if Ascii.eqb c dquote then String backslash (String dquote EmptyString)
  else if Ascii.eqb c backslash then "\\"
  else if (n =? 10)%N then "\n"
  else if (n =? 13)%N then "\r"
  else if (n =? 9)%N then "\t"
  else if (n =? 8)%N then "\b"
  else if (n =? 12)%N then "\f"
  else if ((32 <=? n) && (n <=? 126))%N then String c EmptyString
  else "\u00" ++ String (hex_char (n / 16))
                   (String (hex_char (n mod 16)) EmptyString).

Fixpoint escape (s : string) : string :=
  match s with
  | EmptyString => EmptyString
  | String c r => escape_char c ++ escape r
  end.

Definition encode_basestring_ascii (s : string) : string :=
  String dquote (escape s ++ String dquote EmptyString).

(** The text of a serialisable value. *)
Fixpoint render (v : pyval) : string :=
  match v with
  | PyNone => "null"
  | PyBool true => "true"
  | PyBool false => "false"
  | PyInt z => str_of_int z
  | PyStr s => encode_basestring_ascii s
  | PyList l =>
      "[" ++
      (fix items (l : list pyval) : string :=
         match l with
         | [] => EmptyString
         | x :: tl =>
             render x ++
             match tl with [] => EmptyString | _ => ", " ++ items tl end
         end) l
      ++ "]"
  | PyDict d =>
      "{" ++
      (fix members (d : list (string * pyval)) : string :=
         match d with
         | [] => EmptyString
         | (k, x) :: tl =>
             encode_basestring_ascii k ++ ": " ++ render x ++
             match tl with [] => EmptyString | _ => ", " ++ members tl end
         end) d
      ++ "}"
  | PyArray _ _ => EmptyString
  | PyResponse _ => EmptyString
  end.

(** The class name of the first object the encoder cannot serialise, in
    the order it walks the value. *)
Fixpoint unserializable (v : pyval) : option string :=
  match v with
  | PyNone | PyBool _ | PyInt _ | PyStr _ => None
  | PyList l =>
      (fix first (l : list pyval) : option string :=
         match l with
         | [] => None
         | x :: tl =>
             match unserializable x with
             | Some c => Some c
             | None => first tl
             end
         end) l
  | PyDict d =>
      (fix first (d : list (string * pyval)) : option string :=
         match d with
         | [] => None
         | (_, x) :: tl =>
             match unserializable x with
             | Some c => Some c
             | None => first tl
             end
         end) d
  | PyArray _ _ => Some "ndarray"
  | PyResponse _ => Some "Response"
  end.

Definition dumps (v : pyval) : result string :=
  match unserializable v with
  | Some cls =>
      Raise (TypeError ("Object of type " ++ cls ++ " is not JSON serializable"))
  | None => Ok (render v)
  end.

(** *** [json.loads] *)

Definition is_ws (c : ascii) : bool :=
  let n := N_of_ascii c in
  ((n =? 32) || (n =? 9) || (n =? 10) || (n =? 13))%N.

Fixpoint skip_ws (s : string) : string :=
  match s with
  | String c r => if is_ws c then skip_ws r else s
  | EmptyString => s
  end.

Definition digit_val (c : ascii) : option N :=
  let n := N_of_ascii c in
  if ((48 <=? n) && (n <=? 57))%N then Some (n - 48)%N else None.

Definition hex_val (c : ascii) : option N :=
  let n := N_of_ascii c in
  if ((48 <=? n) && (n <=? 57))%N then Some (n - 48)%N
  else if ((97 <=? n) && (n <=? 102))%N then Some (n - 87)%N
  else if ((65 <=? n) && (n <=? 70))%N then Some (n - 55)%N
  else None.

(** The run of decimal digits at the head of [s], read onto [acc]. *)
Fixpoint scan_digits (acc : N) (s : string) : N * string :=
  match s with
  | String c r =>
      match digit_val c with
      | Some d => scan_digits (10 * acc + d) r
      | None => (acc, s)
      end
  | EmptyString => (acc, s)
  end.

(** The integer part [0|[1-9]\d*] of a number. *)
Definition scan_int_part (s : string) : option (N * string) :=
  match s with
  | String c r =>
      match digit_val c with
      | Some 0%N => Some (0%N, r)
      | Some d => Some (scan_digits d r)
      | None => None
      end
  | EmptyString => None
  end.

Definition starts_with_digit (s : string) : bool :=
  match s with
  | String c _ => match digit_val c with Some _ => true | None => false end
  | EmptyString => false
  end.

(** Does a fraction [\.\d+] or an exponent [[eE][-+]?\d+] follow?  Then
    the number is a float. *)
Definition float_tail (s : string) : bool :=
  match s with
  | String "." r => starts_with_digit r
  | String c r =>
      if (Ascii.eqb c "e" || Ascii.eqb c "E")%bool then
        match r with
        | String "-" r' => starts_with_digit r'
        | String "+" r' => starts_with_digit r'
        | _ => starts_with_digit r
        end
      else false
  | EmptyString => false
  end.

Definition scan_number (s : string) : result (pyval * string) :=
  let '(neg, s') :=
    match s with
    | String "-" r => (true, r)
    | _ => (false, s)
    end in
  match scan_int_part s' with
  | None => Raise JSONDecodeError
  | Some (n, r) =>
      if float_tail r then Raise (OutOfModel "float")
      else Ok (PyInt (if neg then - Z.of_N n else Z.of_N n), r)
  end.

(** The character an escape letter stands for. *)
Definition unescape (c : ascii) : option ascii :=
  if Ascii.eqb c dquote then Some dquote
  else if Ascii.eqb c backslash then Some backslash
  else if Ascii.eqb c "/" then Some "/"%char
  else if Ascii.eqb c "b" then Some "008"%char
  else if Ascii.eqb c "f" then Some "012"%char
  else if Ascii.eqb c "n" then Some "010"%char
  else if Ascii.eqb c "r" then Some "013"%char
  else if Ascii.eqb c "t" then Some "009"%char
  else None.

(** [scanstring], strict: [s] starts after the opening quote; the result
    is the string and what follows its closing quote. *)
Fixpoint scanstring (s : string) : result (string * string) :=
  match s with
  | EmptyString => Raise JSONDecodeError
  | String c r =>
      if Ascii.eqb c dquote then Ok (EmptyString, r)
      else if Ascii.eqb c backslash then
        match r with
        | String "u" (String h1 (String h2 (String h3 (String h4 r')))) =>
            match hex_val h1, hex_val h2, hex_val h3, hex_val h4 with
            | Some d1, Some d2, Some d3, Some d4 =>
                if ((d1 =? 0) && (d2 =? 0))%N then
                  '(t, rest) <- scanstring r' ;;
                  Ok (String (ascii_of_N (16 * d3 + d4)) t, rest)
                else Raise (OutOfModel "code point above U+00FF")
            | _, _, _, _ => Raise JSONDecodeError
            end
        | String e r' =>
            match unescape e with
            | Some ch =>
                '(t, rest) <- scanstring r' ;; Ok (String ch t, rest)
            | None => Raise JSONDecodeError
            end
        | EmptyString => Raise JSONDecodeError
        end
      else if (N_of_ascii c <? 32)%N then Raise JSONDecodeError
      else '(t, rest) <- scanstring r ;; Ok (String c t, rest)
  end.

(** [scan_once], [JSONArray] and [JSONObject].  Each call uses one unit
    of [fuel]; [loads] starts with twice the length of the text. *)
Fixpoint scan_once (fuel : nat) (s : string) : result (pyval * string) :=
  match fuel with
  | O => Raise JSONDecodeError
  | S f =>
      match s with
      | EmptyString => Raise JSONDecodeError
      | String c r =>
          if Ascii.eqb c dquote then
            '(t, rest) <- scanstring r ;; Ok (PyStr t, rest)
          else if Ascii.eqb c "{" then
            match skip_ws r with
            | String c' r' =>
                if Ascii.eqb c' "}" then Ok (PyDict [], r')
                else if Ascii.eqb c' dquote then
                  '(pairs, rest) <- JSONObject f r' ;;
                  Ok (PyDict (dict_of_pairs pairs), rest)
                else Raise JSONDecodeError
            | EmptyString => Raise JSONDecodeError
            end
          else if Ascii.eqb c "[" then
            match skip_ws r with
            | String c' r' =>
                if Ascii.eqb c' "]" then Ok (PyList [], r')
                else '(l, rest) <- JSONArray f (skip_ws r) ;;
                     Ok (PyList l, rest)
            | EmptyString => Raise JSONDecodeError
            end
          else
            match s with
            | String "n" (String "u" (String "l" (String "l" r'))) =>
                Ok (PyNone, r')
            | String "t" (String "r" (String "u" (String "e" r'))) =>
                Ok (PyBool true, r')
            | String "f" (String "a" (String "l" (String "s"
                (String "e" r')))) =>
                Ok (PyBool false, r')
            | String "N" (String "a" (String "N" _)) =>
                Raise (OutOfModel "float")
            | String "I" (String "n" (String "f" (String "i" (String "n"
                (String "i" (String "t" (String "y" _))))))) =>
                Raise (OutOfModel "float")
            | String "-" (String "I" (String "n" (String "f" (String "i"
                (String "n" (String "i" (String "t" (String "y" _)))))))) =>
                Raise (OutOfModel "float")
            | _ => scan_number s
            end
      end
  end

with JSONArray (fuel : nat) (s : string) : result (list pyval * string) :=
  match fuel with
  | O => Raise JSONDecodeError
  | S f =>
      '(v, r) <- scan_once f s ;;
      match skip_ws r with
      | String c r' =>
          if Ascii.eqb c "]" then Ok ([v], r')
          else if Ascii.eqb c "," then
            '(vs, rest) <- JSONArray f (skip_ws r') ;; Ok (v :: vs, rest)
          else Raise JSONDecodeError
      | EmptyString => Raise JSONDecodeError
      end
  end

with JSONObject (fuel : nat) (s : string)
  : result (list (string * pyval) * string) :=
  match fuel with
  | O => Raise JSONDecodeError
  | S f =>
      '(k, r) <- scanstring s ;;
      match skip_ws r with
      | String c1 r1 =>
          if Ascii.eqb c1 ":" then
            '(v, r2) <- scan_once f (skip_ws r1) ;;
            match skip_ws r2 with
            | String c2 r3 =>
                if Ascii.eqb c2 "}" then Ok ([(k, v)], r3)
                else if Ascii.eqb c2 "," then
                  match skip_ws r3 with
                  | String c3 r4 =>
                      if Ascii.eqb c3 dquote then
                        '(ps, rest) <- JSONObject f r4 ;;
                        Ok ((k, v) :: ps, rest)
                      else Raise JSONDecodeError
                  | EmptyString => Raise JSONDecodeError
                  end
                else Raise JSONDecodeError
            | EmptyString => Raise JSONDecodeError
            end
          else Raise JSONDecodeError
      | EmptyString => Raise JSONDecodeError
      end
  end.

(** [json.loads] of a [str]: one value, white space around it, nothing
    after it. *)
Definition loads_str (s : string) : result pyval :=
  '(v, r) <- scan_once (2 * String.length s + 2) (skip_ws s) ;;
  match skip_ws r with
  | EmptyString => Ok v
  | _ => Raise JSONDecodeError
  end.

(** [detect_encoding] may choose UTF-16 or UTF-32 when one of the first
    two bytes is zero, or at a byte-order mark; the marks are left out by
    [bytes_decode_utf8] already, the zeros here. *)
Definition wide_encoding (b : bytes) : bool :=
  match b with
  | b1 :: r =>
      (Byte.to_N b1 =? 0)%N ||
      match r with
      | b2 :: _ => (Byte.to_N b2 =? 0)%N
      | [] => false
      end
  | [] => false
  end.

(** [json.loads] of [bytes]. *)
Definition loads (b : bytes) : result pyval :=
  if wide_encoding b then Raise (OutOfModel "utf-16 or utf-32")
  else s <- bytes_decode_utf8 b ;; loads_str s.

End json.

(** ** The [numpy] library *)

Module np.

(** An [ndarray]: its shape and its items in row-major order. *)
Definition ndarray : Type := list nat * list pyval.

Definition to_py (a : ndarray) : pyval := PyArray (fst a) (snd a).

(** The number of items of a shape. *)
Definition size (shape : list nat) : nat := fold_right Nat.mul 1 shape.

(** [n] consecutive blocks of [k] items. *)
Fixpoint chunks (n k : nat) (data : list pyval) : list (list pyval) :=
  match n with
  | O => []
  | S n' => firstn k data :: chunks n' k (skipn k data)
  end.

(** [a.tolist()]: nested lists along the shape; the item itself for a
    0-dimensional array. *)
Fixpoint tolist (shape : list nat) (data : list pyval) : pyval :=
  match shape with
  | [] => match data with x :: _ => x | [] => PyNone end
  | n :: rest => PyList (map (tolist rest) (chunks n (size rest) data))
  end.

Definition is_int64 (z : Z) : bool :=
  ((- 2 ^ 63 <=? z) && (z <? 2 ^ 63))%Z.

Definition shape_eqb (s1 s2 : list nat) : bool :=
  if list_eq_dec Nat.eq_dec s1 s2 then true else false.

(** Rows of one shape [sh], laid one after the other. *)
Fixpoint stack_rows (sh : list nat) (rows : list (option ndarray))
  : option (list pyval) :=
  match rows with
  | [] => Some []
  | Some (sh', d) :: tl =>
      if shape_eqb sh sh' then option_map (app d) (stack_rows sh tl)
      else None
  | None :: _ => None
  end.

Definition stack (rows : list (option ndarray)) : option ndarray :=
  match rows with
  | [] => Some ([0], [])
  | Some (sh, _) :: _ =>
      option_map (fun d => (List.length rows :: sh, d)) (stack_rows sh rows)
  | None :: _ => None
  end.

(** The array of an [int] scalar or of rectangular nested lists of
    [int]s, all within 64 bits: the inputs on which [np.array] builds an
    integer array and keeps every value. *)
Fixpoint int_array (v : pyval) : option ndarray :=
  match v with
  | PyInt z => if is_int64 z then Some ([], [PyInt z]) else None
  | PyList l => stack (map int_array l)
  | _ => None
  end.

(** [np.array(v)].  An [ndarray] is taken as it is.  [object_array] is
    what [numpy] builds from any other object: arrays of [bool], [str] or
    [object] items, with the promotions of mixed lists. *)
Definition array (object_array : pyval -> result ndarray) (v : pyval)
  : result ndarray :=
  match v with
  | PyArray sh d => Ok (sh, d)
  | _ =>
      match int_array v with
      | Some a => Ok a
      | None => object_array v
      end
  end.

End np.

(** ** The [flask] library *)

Module flask.

(** Whether an application context is active where a call is made.  Flask
    pushes one while it handles a request; [current_app] is bound inside
    it, and reading it outside raises [RuntimeError]. *)
Inductive app_ctx : Type :=
| outside
| inside.

(** [jsonify(v)]: a [Response] with a JSON body made from [v], held here
    by the value it encodes.  It reads [current_app] before it
    serialises. *)
Definition jsonify (ctx : app_ctx) (v : pyval) : result pyval :=
  match ctx with
  | outside =>
      Raise (RuntimeError "Working outside of application context.")
  | inside =>
      match json.unserializable v with
      | Some cls =>
          Raise (TypeError
                   ("Object of type " ++ cls ++ " is not JSON serializable")%string)
      | None => Ok (PyResponse v)
      end
  end.

(** The incoming request, seen through [request.get_json()]. *)
Record request : Type := mkrequest {
  get_json : result pyval
}.

End flask.

(** ** The collaborators of the pipeline library *)

(** Modelled from the spec: the batch envelope of [neuraxle.data_container],
    "a batch-envelope type with the four named fields plus a summary
    identifier". *)
Record DataContainer : Type := mkDataContainer {
  summary_id : pyval;
  current_ids : pyval;
  data_inputs : pyval;
  expected_outputs : pyval
}.

(** Modelled from the spec: the execution context of [neuraxle.base], "an
    execution-context object exposing a path accessor"; the accessor takes
    the [is_absolute] flag. *)
Record ExecutionContext : Type := mkExecutionContext {
  get_path : bool -> string
}.

(** Modelled from the spec: a step of [neuraxle.base], seen through the one
    capability this layer uses, [transform]; the call is made inside or
    outside an application context, which a step may depend on. *)
Record BaseStep : Type := mkBaseStep {
  step_transform : flask.app_ctx -> pyval -> result pyval
}.

(** Modelled from the spec: the [Pipeline] of [neuraxle.pipeline], "a single
    linear pipeline": [transform] hands the data to each step in turn, and an
    exception raised by any stage propagates. *)
Module Pipeline.

Definition t : Type := list BaseStep.

Definition __init__ (steps : list BaseStep) : t := steps.

Fixpoint transform (ctx : flask.app_ctx) (self : t) (data_inputs : pyval)
  : result pyval :=
  match self with
  | [] => Ok data_inputs
  | step :: rest =>
      out <- step_transform step ctx data_inputs ;; transform ctx rest out
  end.

End Pipeline.

(** ** The network *)

(** What [urllib.request.Request(url, method=, headers=, data=)] holds. *)
Record Request : Type := mkRequest {
  full_url : string;
  req_method : string;
  req_headers : list (string * string);
  req_data : bytes
}.

(** The world outside the process: [remote] is what a request gets, the
    body read from its response or the exception that building, opening or
    reading it raises; [opened] lists the requests opened so far. *)
Record world : Type := mkWorld {
  remote : Request -> result bytes;
  opened : list Request
}.

(** Computations that may raise and may reach the network. *)
Definition IO (A : Type) : Type := world -> result A * world.

Definition io_ret {A : Type} (a : A) : IO A := fun w => (Ok a, w).

Definition io_lift {A : Type} (r : result A) : IO A := fun w => (r, w).

Definition io_bind {A B : Type} (m : IO A) (k : A -> IO B) : IO B :=
  fun w =>
    match m w with
    | (Ok a, w') => k a w'
    | (Raise e, w') => (Raise e, w')
    end.

Declare Scope io_scope.
Delimit Scope io_scope with io.
Notation "x <- c ;; k" := (io_bind c (fun x => k))
  (at level 61, c at next level, right associativity) : io_scope.

(** [urllib.request.urlopen(req).read()] *)
Definition urlopen_read (req : Request) : IO bytes :=
  fun w => (remote w req, mkWorld (remote w) (opened w ++ [req])).

(** ** The [flask_restful] library, on Flask's routing *)

Module flask_restful.

Inductive http_method : Type :=
| GET | HEAD | POST | PUT | DELETE | PATCH | OPTIONS | TRACE.

(** A handler method of a resource: it runs in the application context
    of its call and reads the request. *)
Definition view : Type := flask.app_ctx -> flask.request -> result pyval.

(** A [Resource] class: the handler methods it defines ([get], [head],
    [post], ...), by HTTP method. *)
Record Resource : Type := mkResource {
  handler : http_method -> option view
}.

Definition defines (res : Resource) (m : http_method) : bool :=
  match handler res m with
  | Some _ => true
  | None => false
  end.

(** [Resource.dispatch_request] looks up the method named after the
    request's, and for a HEAD request on a class without [head], its
    [get]. *)
Definition dispatch_request (res : Resource) (m : http_method)
  : option view :=
  match handler res m with
  | Some meth => Some meth
  | None =>
      match m with
      | HEAD => handler res GET
      | _ => None
      end
  end.

(** The methods of the URL rule that [add_resource] registers for a
    class: those the class defines, HEAD along with GET, and OPTIONS,
    which Flask answers by itself when the class has no [options]. *)
Definition rule_methods (res : Resource) (m : http_method) : bool :=
  defines res m
  || match m with
     | HEAD => defines res GET
     | OPTIONS => true
     | _ => false
     end.

(** What a request that matches the rule of a resource gets: the value
    or exception of the handler that ran, Flask's own answer to OPTIONS,
    or the refusal of the method (405). *)
Inductive answer : Type :=
| Handled (r : result pyval)
| AutomaticOptions
| MethodNotAllowed.

(** Flask serving a request that matches the rule: the method is checked
    against the rule, and the handler runs inside the application context
    that Flask pushes for the request. *)
Definition serve (res : Resource) (m : http_method)
    (request : flask.request) : answer :=
  if negb (rule_methods res m) then MethodNotAllowed
  else
    match m, defines res OPTIONS with
    | OPTIONS, false => AutomaticOptions
    | _, _ =>
        match dispatch_request res m with
        | Some meth => Handled (meth flask.inside request)
        | None =>
            Handled (Raise (OtherException "AssertionError"
                              "Unimplemented method"))
        end
    end.

(** A [Flask] application with its [Api]: the resources registered, each
    at its route. *)
Record Flask : Type := mkFlask {
  resources : list (string * Resource)
}.

Definition Flask_new : Flask := mkFlask [].

Definition add_resource (app : Flask) (res : Resource) (url : string)
  : Flask :=
  mkFlask (resources app ++ [(url, res)]).

End flask_restful.

(** ** [neuraxle/rest/flask.py] *)

Module JSONDataBodyDecoder.

(** A decoder, seen through the [decode] its class resolves to. *)
Record t : Type := mk { decode_method : pyval -> result pyval }.

(** The abstract method's own body, which runs when [decode] is called on
    the class or reached through [super()] from an override. *)
Definition decode (data_inputs : pyval) : result pyval :=
  Raise (NotImplementedError
    "TODO: inherit from the `JSONDataBodyDecoder` class and implement this method.").

(** Instantiating a subclass.  The class is an [ABC] and [decode] an
    [abstractmethod]: a subclass that overrides [decode] gives an
    instance, one that leaves it abstract cannot be instantiated. *)
Definition subclass (override : option (pyval -> result pyval))
  : result t :=
  match override with
  | Some f => Ok (mk f)
  | None =>
      Raise (TypeError
               "Can't instantiate abstract class with abstract method decode")
  end.

Definition transform (self : t) (data_inputs : pyval) : result pyval :=
  decode_method self data_inputs.

Definition as_step (self : t) : BaseStep :=
  mkBaseStep (fun _ => transform self).

End JSONDataBodyDecoder.

Module JSONDataResponseEncoder.

Record t : Type := mk { encode_method : pyval -> result pyval }.

(** The abstract method's own body. *)
Definition encode (data_inputs : pyval) : result pyval :=
  Raise (NotImplementedError
    "TODO: inherit from the `JSONDataResponseEncoder` class and implement this method.").

(** Instantiating a subclass, as for the decoder. *)
Definition subclass (override : option (pyval -> result pyval))
  : result t :=
  match override with
  | Some f => Ok (mk f)
  | None =>
      Raise (TypeError
               "Can't instantiate abstract class with abstract method encode")
  end.

Definition transform (ctx : flask.app_ctx) (self : t) (data_inputs : pyval)
  : result pyval :=
  encoded <- encode_method self data_inputs ;; flask.jsonify ctx encoded.

Definition as_step (self : t) : BaseStep :=
  mkBaseStep (fun ctx => transform ctx self).

End JSONDataResponseEncoder.

Module FlaskRestApiWrapper.

Record t : Type := mk {
  steps : Pipeline.t;
  route : string
}.

Definition __init__ (json_decoder : JSONDataBodyDecoder.t)
    (wrapped : BaseStep) (json_encoder : JSONDataResponseEncoder.t)
    (route : option string) : t :=
  mk (Pipeline.__init__
        [JSONDataBodyDecoder.as_step json_decoder;
         wrapped;
         JSONDataResponseEncoder.as_step json_encoder])
     (match route with Some r => r | None => "/" end).

(** Inherited from [Pipeline]. *)
Definition transform (ctx : flask.app_ctx) (self : t) (data_inputs : pyval)
  : result pyval :=
  Pipeline.transform ctx (steps self) data_inputs.

(** The class [RESTfulRes] that [get_app] declares: it defines [get]. *)
Definition RESTfulRes (wrapped : t) : flask_restful.Resource :=
  flask_restful.mkResource (fun m =>
    match m with
    | flask_restful.GET =>
        Some (fun ctx request =>
                body <- flask.get_json request ;;
                transform ctx wrapped body)
    | _ => None
    end).

Definition get_app (self : t) : flask_restful.Flask :=
  let app := flask_restful.Flask_new in
  flask_restful.add_resource app (RESTfulRes self) (route self).

End FlaskRestApiWrapper.

Module RequestWrapper.

(** A client, seen through the [post] and [get] its class resolves to. *)
Record t : Type := mk {
  post_method : string -> pyval -> IO pyval;
  get_method :
    string -> string -> list (string * string) -> bytes -> IO pyval
}.

(** The abstract methods' own bodies: [pass].  They run when the method
    is called on the class or reached through [super()] from an
    override. *)
Definition post (host : string) (files : pyval) : IO pyval :=
  io_ret PyNone.

Definition get (url method : string) (headers : list (string * string))
    (data : bytes) : IO pyval :=
  io_ret PyNone.

(** Instantiating a subclass.  The class is an [ABC] and both methods are
    [abstractmethod]s: a subclass that overrides both gives an instance,
    one that leaves either abstract cannot be instantiated. *)
Definition subclass
    (override_post : option (string -> pyval -> IO pyval))
    (override_get :
       option (string -> string -> list (string * string) -> bytes
               -> IO pyval)) : result t :=
  match override_post, override_get with
  | Some p, Some g => Ok (mk p g)
  | Some _, None =>
      Raise (TypeError
               "Can't instantiate abstract class with abstract method get")
  | None, Some _ =>
      Raise (TypeError
               "Can't instantiate abstract class with abstract method post")
  | None, None =>
      Raise (TypeError
               "Can't instantiate abstract class with abstract methods get, post")
  end.

End RequestWrapper.

Module UrllibRequestWrapper.

Definition post (url : string) (files : pyval) : IO pyval :=
  io_ret PyNone.

Definition get (url method : string) (headers : list (string * string))
    (data : bytes) : IO pyval :=
  (let req := mkRequest url method headers data in
   response <- urlopen_read req ;;
   results <- io_lift (json.loads response) ;;
   io_ret results)%io.

(** The class overrides both abstract methods, so that it has
    instances. *)
Definition __init__ : RequestWrapper.t := RequestWrapper.mk post get.

End UrllibRequestWrapper.

Module RestAPICaller.

(** What the [request] field may hold: the module [urllib.request], or an
    object of the client abstraction. *)
Inductive client : Type :=
| urllib_request
| client_object (c : RequestWrapper.t).

Record t : Type := mk {
  url : string;
  method : string;
  request : client
}.

Definition __init__ (url : string) (method : option string)
    (request : option client) : t :=
  mk url
     (match method with Some m => m | None => "GET" end)
     (match request with Some r => r | None => urllib_request end).

(** The attribute [get] of the client: the module [urllib.request] has
    none. *)
Definition getattr_get (c : client)
  : result (string -> string -> list (string * string) -> bytes
            -> IO pyval) :=
  match c with
  | urllib_request => Raise (AttributeError "get")
  | client_object o => Ok (RequestWrapper.get_method o)
  end.

Definition transform (self : t) (data_inputs : pyval) : result pyval :=
  Raise (NotImplementedError "must be used inside a pipeline").

Definition _will_transform_data_container (self : t)
    (data_container : DataContainer) (context : ExecutionContext)
  : DataContainer * ExecutionContext :=
  (data_container, context).

Section WithNumpy.

(** [numpy] outside integer arrays, see [np.array]. *)
Variable object_array : pyval -> result np.ndarray.

(** [np.array(v).tolist()] *)
Definition array_tolist (v : pyval) : result pyval :=
  a <- np.array object_array v ;; Ok (np.tolist (fst a) (snd a)).

(** [np.array(results[key])] *)
Definition array_of_item (results : pyval) (key : string)
  : result pyval :=
  item <- getitem results key ;;
  a <- np.array object_array item ;; Ok (np.to_py a).

Definition _transform_data_container (self : t)
    (data_container : DataContainer) (context : ExecutionContext)
  : IO DataContainer :=
  (data <- io_lift (
    (di <- array_tolist (data_inputs data_container) ;;
     eo <- array_tolist (expected_outputs data_container) ;;
     ci <- array_tolist (current_ids data_container) ;;
     let data_dict := PyDict [
       ("path", PyStr (get_path context false));
       ("data_inputs", di);
       ("expected_outputs", eo);
       ("current_ids", ci);
       ("summary_id", summary_id data_container)] in
     text <- json.dumps data_dict ;;
     Ok (str_encode_utf8 text))%py) ;;
   get <- io_lift (getattr_get (request self)) ;;
   results <- get (url self) (method self)
                [("content-type", "application/json")] data ;;
   io_lift (
    (sid <- array_of_item results "summary_id" ;;
     ci <- array_of_item results "current_ids" ;;
     di <- array_of_item results "data_inputs" ;;
     eo <- array_of_item results "expected_outputs" ;;
     Ok (mkDataContainer sid ci di eo))%py))%io.

End WithNumpy.

End RestAPICaller.

(** A client for tests: it answers every [get] with its own request body,
    parsed, and leaves the network alone. *)
Definition echo_client : RequestWrapper.t :=
  RequestWrapper.mk
    (fun _ _ => io_ret PyNone)
    (fun _ _ _ data => io_lift (json.loads data)).

(** ** Notions used in the statements *)

(** Values made of [None], [bool], [int], [str], [list] and [dict] only,
    no key twice in a [dict]: what [json] writes and reads back. *)
Local Unset Elimination Schemes.
Inductive plain : pyval -> Prop :=
| plain_None : plain PyNone
| plain_Bool (b : bool) : plain (PyBool b)
| plain_Int (z : Z) : plain (PyInt z)
| plain_Str (s : string) : plain (PyStr s)
| plain_List (l : list pyval) : Forall plain l -> plain (PyList l)
| plain_Dict (d : list (string * pyval)) :
    Forall (fun kv => plain (snd kv)) d -> NoDup (map fst d) ->
    plain (PyDict d).
Local Set Elimination Schemes.

(** The text between the brackets of a [list]. *)
Fixpoint render_items (l : list pyval) : string :=
  match l with
  | [] => EmptyString
  | x :: tl =>
      (json.render x ++
       match tl with [] => EmptyString | _ => ", " ++ render_items tl end)%string
  end.

(** The text between the braces of a [dict]. *)
Fixpoint render_members (d : list (string * pyval)) : string :=
  match d with
  | [] => EmptyString
  | (k, x) :: tl =>
      (json.encode_basestring_ascii k ++ ": " ++ json.render x ++
       match tl with [] => EmptyString | _ => ", " ++ render_members tl end)%string
  end.

(** An upper bound of the fuel [json.scan_once] uses on the text of a
    value. *)
Fixpoint weight (v : pyval) : nat :=
  match v with
  | PyList l =>
      S ((fix sum (l : list pyval) : nat :=
            match l with
            | [] => 0
            | x :: tl => S (weight x) + sum tl
            end) l)
  | PyDict d =>
      S ((fix sum (d : list (string * pyval)) : nat :=
            match d with
            | [] => 0
            | (_, x) :: tl => S (weight x) + sum tl
            end) d)
  | _ => 1
  end.

Fixpoint weight_items (l : list pyval) : nat :=
  match l with
  | [] => 0
  | x :: tl => S (weight x) + weight_items tl
  end.

Fixpoint weight_members (d : list (string * pyval)) : nat :=
  match d with
  | [] => 0
  | (_, x) :: tl => S (weight x) + weight_members tl
  end.

(** What may follow a number in a text: no digit, no fraction, no
    exponent. *)
Definition delimited (rest : string) : Prop :=
  json.starts_with_digit rest = false /\ json.float_tail rest = false.

(** The first character of a value's text: no white space, no closing
    bracket. *)
Definition value_start (c : ascii) : Prop :=
  json.is_ws c = false /\ Ascii.eqb c "]" = false.

(** [json.scan_once] reads [v] back from its text, whatever follows. *)
Definition reads_back (v : pyval) : Prop :=
  forall (f : nat) (rest : string),
    weight v <= f -> delimited rest ->
    json.scan_once f (json.render v ++ rest)%string = Ok (v, rest).

(** The characters [json.dumps] writes: U+0020..U+007E. *)
Definition printable (c : ascii) : bool :=
  ((32 <=? N_of_ascii c) && (N_of_ascii c <=? 126))%N.

Fixpoint all_printable (s : string) : bool :=
  match s with
  | EmptyString => true
  | String c r => printable c && all_printable r
  end.

(** An item of an integer array: an [int] within 64 bits. *)
Definition int64_item (x : pyval) : Prop :=
  exists z : Z, x = PyInt z /\ np.is_int64 z = true.

(** An array of 64-bit integers: as many items as its shape says, all of
    them 64-bit integers. *)
Definition int64_array (shape : list nat) (data : list pyval) : Prop :=
  List.length data = np.size shape /\ Forall int64_item data.

(** A numeric array as the envelope holds it: an [ndarray] of 64-bit
    integers, or nested lists that [np.array] reads as one. *)
Definition numeric_array (v : pyval) : Prop :=
  match v with
  | PyArray sh d => int64_array sh d
  | PyList _ => exists a : np.ndarray, np.int_array v = Some a
  | _ => False
  end.

(** What [np.array] reads in an object of the integer fragment: its nested
    lists are the object, and the array is a numeric one. *)
Definition reads_as_array (v : pyval) : Prop :=
  forall sh d,
    np.int_array v = Some (sh, d) ->
    np.tolist sh d = v /\ int64_array sh d.

(** The shape [np.array] finds in the nested lists of an array: the
    dimensions after a zero one leave no trace in them. *)
Fixpoint seen_shape (shape : list nat) : list nat :=
  match shape with
  | [] => []
  | O :: _ => [O]
  | n :: rest => n :: seen_shape rest
  end.

(** The Python value an object holds, an array read as nested lists. *)
Definition value_of (v : pyval) : pyval :=
  match v with
  | PyArray sh d => np.tolist sh d
  | _ => v
  end.

(** ** Objects of the examples *)

(** A stand-in for [numpy] outside integer arrays; no example reaches
    it. *)
Definition no_object_arrays : pyval -> result np.ndarray :=
  fun _ => Raise (OutOfModel "numpy object array").

Definition int_vector (l : list Z) : pyval :=
  PyArray [List.length l] (map PyInt l).

(** The envelope of the specification's example. *)
Definition example_envelope : DataContainer :=
  mkDataContainer (PyInt 7) (int_vector [0; 1; 2]%Z)
    (int_vector [1; 2; 3]%Z) (int_vector [4; 5; 6]%Z).

(** The same envelope as a remote stage returns it: the summary is an
    array. *)
Definition returned_envelope : DataContainer :=
  mkDataContainer (PyArray [] [PyInt 7]) (int_vector [0; 1; 2]%Z)
    (int_vector [1; 2; 3]%Z) (int_vector [4; 5; 6]%Z).

Definition example_context : ExecutionContext :=
  mkExecutionContext (fun _ => "RestAPICaller").

Definition example_url : string := "http://localhost:5000/".

(** A network on which no host answers. *)
Definition unreachable : world :=
  mkWorld (fun _ => Raise (URLError "unreachable")) [].

Definition identity_step : BaseStep := mkBaseStep (fun _ x => Ok x).

(** The codec of the class docstring, made symmetric: the body holds the
    array under the key [values]. *)
Definition values_decoder : JSONDataBodyDecoder.t :=
  JSONDataBodyDecoder.mk (fun body => getitem body "values").

Definition values_encoder : JSONDataResponseEncoder.t :=
  JSONDataResponseEncoder.mk (fun x => Ok (PyDict [("values", x)])).

Definition example_matrix : pyval :=
  PyList [PyList [PyInt 1; PyInt 2]; PyList [PyInt 3; PyInt 4]].

Definition example_body : pyval := PyDict [("values", example_matrix)].

(** The binder of that codec around the identity, at the default route,
    and a request that carries the body. *)
Definition example_binder : FlaskRestApiWrapper.t :=
  FlaskRestApiWrapper.__init__ values_decoder identity_step values_encoder
    None.

Definition example_request : flask.request := flask.mkrequest (Ok example_body).


(** ** Objects of the further properties *)

(** The headers of every request of the caller. *)
Definition json_headers : list (string * string) :=
  [("content-type", "application/json")].

(** A client for tests that answers every [get] with the same reply. *)
Definition constant_client (reply : pyval) : RequestWrapper.t :=
  RequestWrapper.mk
    (fun _ _ => io_ret PyNone)
    (fun _ _ _ _ => io_ret reply).

(** A network whose host answers every request with the request's body. *)
Definition identity_server : world :=
  mkWorld (fun req => Ok (req_data req)) [].

(** A network whose host answers every request with a blank body. *)
Definition blank_server : world :=
  mkWorld (fun _ => Ok [x20; x0a]) [].

(** The white space of JSON, as bytes. *)
Definition ws_byte (b : byte) : Prop :=
  b = x20 \/ b = x09 \/ b = x0a \/ b = x0d.

(** A reply that carries predictions besides the four fields. *)
Definition example_reply : pyval :=
  PyDict [("predictions", PyList [PyInt 1]);
          ("summary_id", PyInt 9);
          ("current_ids", PyList [PyInt 5]);
          ("data_inputs", PyList [PyInt 8]);
          ("expected_outputs", PyList [])].

(** A reply without [current_ids]. *)
Definition partial_reply : pyval :=
  PyDict [("summary_id", PyInt 9); ("data_inputs", PyList [PyInt 8])].

(** * Properties *)

(** ** Strings *)

Lemma string_app_assoc (a b c : string) :
  ((a ++ b) ++ c = a ++ (b ++ c))%string.
Proof. induction a as [|x a IH]; simpl; [reflexivity | now rewrite IH]. Qed.

Lemma string_app_nil_r (s : string) : (s ++ EmptyString)%string = s.
Proof. induction s as [|c s IH]; simpl; [reflexivity | now rewrite IH]. Qed.

Lemma string_length_app (a b : string) :
  String.length (a ++ b)%string = String.length a + String.length b.
Proof. induction a as [|x a IH]; simpl; [reflexivity | now rewrite IH]. Qed.

(** ** Numbers in [json] text *)

(** Splits a goal about a digit [d] into its ten (or nine) values. *)
Ltac each_digit d :=
  let H := fresh "Hdigit" in
  assert (H : (d = 0 \/ d = 1 \/ d = 2 \/ d = 3 \/ d = 4 \/ d = 5 \/ d = 6
               \/ d = 7 \/ d = 8 \/ d = 9)%N) by lia;
  repeat (destruct H as [H | H]; [subst d |]);
  [.. | subst d].

Lemma digit_val_digit_char (d : N) :
  (d < 10)%N -> json.digit_val (json.digit_char d) = Some d.
Proof. intros H. each_digit d; reflexivity. Qed.

Lemma pow2_fuel_step (n : N) (f : nat) :
  (10 <= n)%N -> (Z.of_N n < 2 ^ Z.of_nat (S f))%Z ->
  (0 < n / 10)%N /\ (Z.of_N (n / 10) < 2 ^ Z.of_nat f)%Z.
Proof.
  intros Hbig Hlt. split.
  - apply N.div_str_pos. lia.
  - rewrite Nat2Z.inj_succ, Z.pow_succ_r in Hlt by lia.
    rewrite N2Z.inj_div.
    pose proof (Z.pow_pos_nonneg 2 (Z.of_nat f) ltac:(lia) ltac:(lia)).
    apply Z.div_lt_upper_bound; lia.
Qed.

(** Reading the digits of [n] continues the number read so far. *)
Lemma scan_digits_digits (f : nat) :
  forall n : N,
    (0 < n)%N -> (Z.of_N n < 2 ^ Z.of_nat f)%Z ->
    exists k : N,
      forall (a : N) (rest : string),
        json.scan_digits a (json.digits f n ++ rest)%string
        = json.scan_digits (a * k + n) rest.
Proof.
  induction f as [|f IH]; intros n Hpos Hlt.
  - simpl in Hlt. lia.
  - simpl json.digits.
    destruct (N.ltb_spec n 10) as [Hsmall | Hbig].
    + exists 10%N. intros a rest. cbn [json.scan_digits String.append].
      rewrite digit_val_digit_char by assumption.
      f_equal. lia.
    + destruct (pow2_fuel_step n f Hbig Hlt) as [Hq Hqlt].
      destruct (IH (n / 10)%N Hq Hqlt) as [k Hk].
      exists (k * 10)%N. intros a rest.
      rewrite string_app_assoc, Hk.
      cbn [json.scan_digits String.append].
      rewrite digit_val_digit_char by (apply N.mod_lt; lia).
      f_equal.
      pose proof (N.div_mod n 10 ltac:(lia)). nia.
Qed.

Lemma digits_head (f : nat) :
  forall n : N,
    (0 < n)%N -> (Z.of_N n < 2 ^ Z.of_nat f)%Z ->
    exists (d : N) (r : string),
      json.digits f n = String (json.digit_char d) r /\ (1 <= d <= 9)%N.
Proof.
  induction f as [|f IH]; intros n Hpos Hlt.
  - simpl in Hlt. lia.
  - simpl json.digits.
    destruct (N.ltb_spec n 10) as [Hsmall | Hbig].
    + exists n, EmptyString. split; [reflexivity | lia].
    + destruct (pow2_fuel_step n f Hbig Hlt) as [Hq Hqlt].
      destruct (IH (n / 10)%N Hq Hqlt) as (d & r & Hd & Hr).
      rewrite Hd. simpl. eauto.
Qed.

Lemma scan_digits_stop (a : N) (rest : string) :
  json.starts_with_digit rest = false -> json.scan_digits a rest = (a, rest).
Proof.
  destruct rest as [|c r]; simpl; [reflexivity |].
  destruct (json.digit_val c); [discriminate | reflexivity].
Qed.

Lemma size_nat_bound (p : positive) :
  (Z.of_N (Npos p) < 2 ^ Z.of_nat (N.size_nat (Npos p)))%Z.
Proof. simpl. apply Zpower2_Psize. lia. Qed.

(** The text of a positive number starts with one of 1..9 and reads back. *)
Lemma str_of_N_scan (p : positive) (rest : string) :
  json.starts_with_digit rest = false ->
  exists (d : N) (r : string),
    json.str_of_N (Npos p) = String (json.digit_char d) r /\
    (1 <= d <= 9)%N /\
    json.scan_int_part (json.str_of_N (Npos p) ++ rest)%string
    = Some (Npos p, rest).
Proof.
  intros Hrest. unfold json.str_of_N.
  destruct (digits_head (N.size_nat (Npos p)) (Npos p) ltac:(lia)
              (size_nat_bound p)) as (d & r & Hd & Hr).
  destruct (scan_digits_digits (N.size_nat (Npos p)) (Npos p) ltac:(lia)
              (size_nat_bound p)) as [k Hk].
  exists d, r. split; [assumption | split; [assumption |]].
  specialize (Hk 0%N rest). rewrite Hd in *.
  cbn [String.append json.scan_digits json.scan_int_part] in *.
  rewrite digit_val_digit_char in * by lia.
  destruct d as [|q]; [lia |].
  replace (10 * 0 + N.pos q)%N with (N.pos q) in Hk by lia.
  rewrite Hk. rewrite N.mul_0_l, N.add_0_l.
  now rewrite scan_digits_stop.
Qed.

Lemma scan_number_str_of_int (z : Z) (rest : string) :
  delimited rest ->
  json.scan_number (json.str_of_int z ++ rest)%string = Ok (PyInt z, rest).
Proof.
  intros [Hd Hf]. destruct z as [|p|p].
  - cbn. rewrite Hf. reflexivity.
  - destruct (str_of_N_scan p rest Hd) as (d & r & Hs & Hr & Hscan).
    unfold json.str_of_int, json.scan_number.
    assert (Hhead : match (json.str_of_N (N.pos p) ++ rest)%string with
                    | String "-" r0 => (true, r0)
                    | _ => (false, (json.str_of_N (N.pos p) ++ rest)%string)
                    end = (false, (json.str_of_N (N.pos p) ++ rest)%string)).
    { rewrite Hs. each_digit d; try lia; reflexivity. }
    rewrite Hhead, Hscan, Hf. reflexivity.
  - destruct (str_of_N_scan p rest Hd) as (d & r & Hs & Hr & Hscan).
    unfold json.str_of_int, json.scan_number.
    cbn [String.append]. rewrite Hscan, Hf. reflexivity.
Qed.

(** [scan_once] sends the text of an [int] to [scan_number]. *)
Lemma scan_once_int (f : nat) (z : Z) (rest : string) :
  delimited rest ->
  json.scan_once (S f) (json.str_of_int z ++ rest)%string
  = Ok (PyInt z, rest).
Proof.
  intros Hrest. rewrite <- (scan_number_str_of_int z rest Hrest).
  destruct z as [|p|p]; [reflexivity | |];
    destruct (str_of_N_scan p rest (proj1 Hrest)) as (d & r & Hs & Hr & _);
    unfold json.str_of_int; rewrite Hs;
    each_digit d; try lia; reflexivity.
Qed.

(** ** Strings in [json] text *)

Lemma scanstring_escape (s rest : string) :
  json.scanstring (json.escape s ++ String dquote rest)%string = Ok (s, rest).
Proof.
  induction s as [|c s IH].
  - reflexivity.
  - cbn [json.escape]. rewrite string_app_assoc.
    destruct c as [[|] [|] [|] [|] [|] [|] [|] [|]];
      cbn; rewrite IH; reflexivity.
Qed.

Lemma scan_once_str (f : nat) (s rest : string) :
  json.scan_once (S f) (json.encode_basestring_ascii s ++ rest)%string
  = Ok (PyStr s, rest).
Proof.
  unfold json.encode_basestring_ascii.
  cbn [String.append json.scan_once].
  change (Ascii.eqb dquote dquote) with true. cbv iota.
  rewrite string_app_assoc. cbn [String.append].
  rewrite scanstring_escape. reflexivity.
Qed.

(** ** The text of lists and dicts *)

Lemma render_list (l : list pyval) :
  json.render (PyList l) = ("[" ++ render_items l ++ "]")%string.
Proof. reflexivity. Qed.

Lemma render_dict (d : list (string * pyval)) :
  json.render (PyDict d) = ("{" ++ render_members d ++ "}")%string.
Proof. reflexivity. Qed.

Lemma weight_list (l : list pyval) : weight (PyList l) = S (weight_items l).
Proof. reflexivity. Qed.

Lemma weight_dict (d : list (string * pyval)) :
  weight (PyDict d) = S (weight_members d).
Proof. reflexivity. Qed.

Lemma render_head (v : pyval) :
  plain v ->
  exists (c : ascii) (r : string), json.render v = String c r /\ value_start c.
Proof.
  intros Hv. destruct Hv as [|b|z|s|l _|d _ _].
  - exists "n"%char, "ull". now split.
  - destruct b; [exists "t"%char, "rue" | exists "f"%char, "alse"]; now split.
  - destruct z as [|p|p].
    + exists "0"%char, EmptyString. now split.
    + destruct (str_of_N_scan p EmptyString eq_refl) as (d & r & Hs & Hr & _).
      exists (json.digit_char d), r. split; [exact Hs |].
      each_digit d; try lia; now split.
    + exists "-"%char, (json.str_of_N (Npos p)). now split.
  - exists dquote, (json.escape s ++ String dquote EmptyString)%string.
    now split.
  - rewrite render_list. cbn [String.append]. eexists _, _. now split.
  - rewrite render_dict. cbn [String.append]. eexists _, _. now split.
Qed.

Lemma skip_ws_stay (c : ascii) (r : string) :
  json.is_ws c = false -> json.skip_ws (String c r) = String c r.
Proof. intros H. cbn [json.skip_ws]. now rewrite H. Qed.

Lemma skip_ws_space (r : string) :
  json.skip_ws (String " " r) = json.skip_ws r.
Proof. reflexivity. Qed.

Lemma skip_ws_render (v : pyval) (rest : string) :
  plain v ->
  json.skip_ws (json.render v ++ rest)%string = (json.render v ++ rest)%string.
Proof.
  intros Hv. destruct (render_head v Hv) as (c & r & -> & Hws & _).
  cbn [String.append]. now apply skip_ws_stay.
Qed.

Lemma dict_set_fresh (d : list (string * pyval)) (k : string) (v : pyval) :
  ~ In k (map fst d) -> dict_set d k v = d ++ [(k, v)].
Proof.
  induction d as [|[k' v'] tl IH]; intros Hk; [reflexivity |].
  cbn [dict_set app]. cbn [map fst In] in Hk.
  destruct (String.eqb_spec k' k) as [-> | Hne]; [tauto |].
  rewrite IH by tauto. reflexivity.
Qed.

(** [dict(pairs)] keeps pairs whose keys differ as they are. *)
Lemma dict_of_pairs_nodup (d : list (string * pyval)) :
  NoDup (map fst d) -> dict_of_pairs d = d.
Proof.
  unfold dict_of_pairs.
  enough (H : forall acc,
             NoDup (map fst (acc ++ d)) ->
             fold_left (fun d kv => dict_set d (fst kv) (snd kv)) d acc
             = acc ++ d) by (intros Hd; exact (H [] Hd)).
  induction d as [|[k v] tl IH]; intros acc Hnd.
  - cbn. now rewrite app_nil_r.
  - cbn [fold_left fst snd].
    rewrite dict_set_fresh.
    + rewrite IH; rewrite <- app_assoc; [reflexivity | exact Hnd].
    + rewrite map_app in Hnd. cbn [map fst] in Hnd.
      apply NoDup_remove_2 in Hnd. intros Hin. apply Hnd.
      apply in_or_app. now left.
Qed.

(** ** Reading a value back from its text *)

Lemma delimited_close_bracket (rest : string) : delimited (String "]" rest).
Proof. now split. Qed.

Lemma delimited_close_brace (rest : string) : delimited (String "}" rest).
Proof. now split. Qed.

Lemma delimited_comma (rest : string) : delimited (String "," rest).
Proof. now split. Qed.

Lemma delimited_empty : delimited EmptyString.
Proof. now split. Qed.

Create HintDb json_text discriminated.
#[local] Hint Resolve delimited_close_bracket delimited_close_brace
  delimited_comma delimited_empty : json_text.

Lemma JSONArray_items (l : list pyval) :
  l <> [] -> Forall reads_back l -> Forall plain l ->
  forall (f : nat) (rest : string),
    weight_items l <= f ->
    json.JSONArray f (render_items l ++ String "]" rest)%string
    = Ok (l, rest).
Proof.
  induction l as [|x tl IH]; intros Hne Hrb Hpl f rest Hf; [congruence |].
  inversion Hrb as [|? ? Hx Htl]; subst.
  inversion Hpl as [|? ? Px Ptl]; subst.
  cbn [weight_items] in Hf.
  destruct f as [|f]; [lia |].
  cbn [json.JSONArray render_items].
  rewrite string_app_assoc.
  destruct tl as [|y tl'].
  - cbn [String.append].
    rewrite (Hx f (String "]" rest)) by (lia || auto with json_text).
    reflexivity.
  - rewrite string_app_assoc. cbn [String.append].
    rewrite (Hx f _) by (lia || auto with json_text).
    cbn [bind]. rewrite (skip_ws_stay "," _ eq_refl).
    change (Ascii.eqb "," "]") with false.
    change (Ascii.eqb "," ",") with true. cbv iota.
    rewrite skip_ws_space.
    assert (Hskip :
              json.skip_ws (render_items (y :: tl') ++ String "]" rest)%string
              = (render_items (y :: tl') ++ String "]" rest)%string).
    { cbn [render_items]. rewrite string_app_assoc.
      apply skip_ws_render. now inversion Ptl. }
    rewrite Hskip.
    rewrite IH; [reflexivity | congruence | assumption | assumption | lia].
Qed.

Lemma JSONObject_members (d : list (string * pyval)) :
  d <> [] -> Forall (fun kv => reads_back (snd kv)) d ->
  Forall (fun kv => plain (snd kv)) d ->
  forall (f : nat) (rest : string),
    weight_members d <= f ->
    exists r0 : string,
      (render_members d ++ String "}" rest)%string = String dquote r0 /\
      json.JSONObject f r0 = Ok (d, rest).
Proof.
  induction d as [|[k x] tl IH]; intros Hne Hrb Hpl f rest Hf; [congruence |].
  inversion Hrb as [|? ? Hx Htl]; subst.
  inversion Hpl as [|? ? Px Ptl]; subst.
  cbn [snd] in Hx, Px.
  cbn [weight_members] in Hf.
  destruct f as [|f]; [lia |].
  cbn [render_members]. unfold json.encode_basestring_ascii.
  cbn [String.append]. eexists. split; [reflexivity |].
  cbn [json.JSONObject].
  rewrite !string_app_assoc. cbn [String.append].
  rewrite scanstring_escape.
  cbn [bind]. rewrite (skip_ws_stay ":" _ eq_refl).
  change (Ascii.eqb ":" ":") with true. cbv iota.
  rewrite skip_ws_space.
  destruct tl as [|[k' y] tl'].
  - rewrite string_app_assoc. cbn [String.append].
    rewrite skip_ws_render by assumption.
    rewrite (Hx f (String "}" rest)) by (lia || auto with json_text).
    reflexivity.
  - rewrite !string_app_assoc. cbn [String.append].
    rewrite skip_ws_render by assumption.
    rewrite (Hx f _) by (lia || auto with json_text).
    destruct (IH ltac:(congruence) Htl Ptl f rest ltac:(lia))
      as (r0 & Hr0 & Hobj).
    cbn [bind]. rewrite (skip_ws_stay "," _ eq_refl).
    change (Ascii.eqb "," "}") with false.
    change (Ascii.eqb "," ",") with true. cbv iota.
    rewrite skip_ws_space, Hr0, (skip_ws_stay dquote _ eq_refl).
    change (Ascii.eqb dquote dquote) with true. cbv iota.
    rewrite Hobj. reflexivity.
Qed.

Lemma plain_reads_back (v : pyval) : plain v -> reads_back v.
Proof.
  induction v as [|b|z|s|l IHl|d IHd|sh d _|p _] using pyval_nested_ind;
    intros Hv f rest Hf Hrest;
    (destruct f as [|f]; [cbn [weight] in Hf; lia |]).
  - reflexivity.
  - destruct b; reflexivity.
  - now apply scan_once_int.
  - apply scan_once_str.
  - inversion Hv as [| | | |? Hl|]; subst.
    rewrite render_list. rewrite weight_list in Hf.
    rewrite !string_app_assoc. cbn [String.append json.scan_once].
    change (Ascii.eqb "[" dquote) with false.
    change (Ascii.eqb "[" "{") with false.
    change (Ascii.eqb "[" "[") with true. cbv iota.
    destruct l as [|x tl]; [reflexivity |].
    assert (Hrb : Forall reads_back (x :: tl)).
    { rewrite Forall_forall in *. intros y Hy. apply IHl; auto. }
    assert (Hskip :
              json.skip_ws (render_items (x :: tl) ++ String "]" rest)%string
              = (render_items (x :: tl) ++ String "]" rest)%string).
    { cbn [render_items]. rewrite string_app_assoc.
      apply skip_ws_render. now inversion Hl. }
    rewrite Hskip.
    rewrite JSONArray_items by (congruence || assumption || lia).
    cbn [render_items].
    destruct (render_head x ltac:(now inversion Hl)) as (c & r & -> & _ & Hc).
    cbn [String.append]. rewrite Hc. reflexivity.
  - inversion Hv as [| | | | |? Hd Hnd]; subst.
    rewrite render_dict. rewrite weight_dict in Hf.
    rewrite !string_app_assoc. cbn [String.append json.scan_once].
    change (Ascii.eqb "{" dquote) with false.
    change (Ascii.eqb "{" "{") with true. cbv iota.
    destruct d as [|kx tl]; [reflexivity |].
    assert (Hrb : Forall (fun kv => reads_back (snd kv)) (kx :: tl)).
    { rewrite Forall_forall in *. intros y Hy. apply IHd; auto. }
    destruct (JSONObject_members (kx :: tl) ltac:(congruence) Hrb Hd f rest
                ltac:(lia)) as (r0 & Hr0 & Hobj).
    rewrite Hr0, (skip_ws_stay dquote _ eq_refl).
    change (Ascii.eqb dquote "}") with false.
    change (Ascii.eqb dquote dquote) with true. cbv iota.
    rewrite Hobj. cbn [bind].
    now rewrite dict_of_pairs_nodup.
  - inversion Hv.
  - inversion Hv.
Qed.

(** ** The characters of a text *)

Lemma all_printable_app (a b : string) :
  all_printable (a ++ b)%string = all_printable a && all_printable b.
Proof.
  induction a as [|c a IH]; [reflexivity |].
  cbn [String.append all_printable]. now rewrite IH, andb_assoc.
Qed.

Lemma escape_char_printable (c : ascii) :
  all_printable (json.escape_char c) = true.
Proof. destruct c as [[|] [|] [|] [|] [|] [|] [|] [|]]; reflexivity. Qed.

Lemma escape_printable (s : string) : all_printable (json.escape s) = true.
Proof.
  induction s as [|c s IH]; [reflexivity |].
  cbn [json.escape]. now rewrite all_printable_app, escape_char_printable, IH.
Qed.

Lemma encode_basestring_printable (s : string) :
  all_printable (json.encode_basestring_ascii s) = true.
Proof.
  unfold json.encode_basestring_ascii. cbn [all_printable].
  now rewrite all_printable_app, escape_printable.
Qed.

Lemma digit_char_printable (d : N) :
  (d < 10)%N -> printable (json.digit_char d) = true.
Proof. intros H. each_digit d; reflexivity. Qed.

Lemma digits_printable (f : nat) (n : N) :
  all_printable (json.digits f n) = true.
Proof.
  revert n. induction f as [|f IH]; intros n; [reflexivity |].
  cbn [json.digits]. destruct (N.ltb_spec n 10) as [Hs | Hb].
  - cbn [all_printable]. now rewrite digit_char_printable.
  - rewrite all_printable_app, IH. cbn [all_printable].
    rewrite digit_char_printable; [reflexivity | apply N.mod_lt; lia].
Qed.

Lemma str_of_int_printable (z : Z) : all_printable (json.str_of_int z) = true.
Proof.
  destruct z; cbn [json.str_of_int all_printable]; try reflexivity;
    unfold json.str_of_N; now rewrite digits_printable.
Qed.

(** [json.dumps] writes ASCII only. *)
Lemma render_printable (v : pyval) : all_printable (json.render v) = true.
Proof.
  induction v as [|b|z|s|l IHl|d IHd|sh d _|p _] using pyval_nested_ind.
  - reflexivity.
  - destruct b; reflexivity.
  - apply str_of_int_printable.
  - apply encode_basestring_printable.
  - rewrite render_list. cbn [String.append all_printable printable].
    rewrite all_printable_app. cbn [all_printable].
    enough (H : all_printable (render_items l) = true) by now rewrite H.
    induction IHl as [|x tl Hx _ IH]; [reflexivity |].
    cbn [render_items]. rewrite all_printable_app, Hx.
    destruct tl; [reflexivity |].
    cbn [String.append all_printable]. now rewrite IH.
  - rewrite render_dict. cbn [String.append all_printable printable].
    rewrite all_printable_app. cbn [all_printable].
    enough (H : all_printable (render_members d) = true) by now rewrite H.
    induction IHd as [|[k x] tl Hx _ IH]; [reflexivity |].
    cbn [render_members snd] in *.
    rewrite !all_printable_app, encode_basestring_printable, Hx.
    destruct tl; [reflexivity |].
    cbn [String.append all_printable]. now rewrite IH.
  - reflexivity.
  - reflexivity.
Qed.

(** ** Enough fuel *)

(** The text of a value is at least as long as its weight. *)
Lemma weight_le_length (v : pyval) :
  plain v -> weight v <= String.length (json.render v).
Proof.
  induction v as [|b|z|s|l IHl|d IHd|sh d _|p _] using pyval_nested_ind;
    intros Hv.
  - cbn. lia.
  - destruct b; cbn; lia.
  - destruct (render_head (PyInt z) Hv) as (c & r & -> & _). cbn. lia.
  - cbn. lia.
  - inversion Hv as [| | | |? Hl|]; subst.
    rewrite render_list, weight_list.
    cbn [String.append String.length]. rewrite string_length_app.
    cbn [String.length].
    enough (H : weight_items l <= String.length (render_items l) + 1) by lia.
    induction l as [|x tl IH]; [cbn; lia |].
    inversion IHl as [|? ? Hx Htl]; subst.
    inversion Hl as [|? ? Px Ptl]; subst.
    specialize (Hx Px). specialize (IH Htl (plain_List _ Ptl) Ptl).
    cbn [weight_items render_items]. rewrite string_length_app.
    destruct tl as [|y tl']; [cbn; lia |].
    cbn [String.append String.length]. lia.
  - inversion Hv as [| | | | |? Hd Hnd]; subst.
    rewrite render_dict, weight_dict.
    cbn [String.append String.length]. rewrite string_length_app.
    cbn [String.length].
    enough (H : weight_members d <= String.length (render_members d) + 1)
      by lia.
    clear Hv Hnd.
    induction d as [|[k x] tl IH]; [cbn; lia |].
    inversion IHd as [|? ? Hx Htl]; subst.
    inversion Hd as [|? ? Px Ptl]; subst.
    cbn [snd] in Hx, Px.
    specialize (Hx Px). specialize (IH Htl Ptl).
    cbn [weight_members render_members]. rewrite !string_length_app.
    destruct tl as [|y tl']; [cbn; lia |].
    cbn [String.append String.length]. lia.
  - inversion Hv.
  - inversion Hv.
Qed.

(** [json.loads] reads a value back from its own text: the fuel it starts
    with is enough. *)
Lemma loads_str_render (v : pyval) :
  plain v -> json.loads_str (json.render v) = Ok v.
Proof.
  intros Hv. unfold json.loads_str.
  pose proof (weight_le_length v Hv) as Hw.
  rewrite <- (string_app_nil_r (json.render v)) at 2.
  rewrite skip_ws_render by assumption.
  rewrite (plain_reads_back v Hv) by (lia || auto with json_text).
  reflexivity.
Qed.

(** ** UTF-8 *)

(** [s.encode('utf8').decode('utf8')] is [s]. *)
Lemma utf8_decode_encode (s : string) :
  bytes_decode_utf8 (str_encode_utf8 s) = Ok s.
Proof.
  induction s as [|c s IH]; [reflexivity |].
  cbn [str_encode_utf8].
  destruct c as [[|] [|] [|] [|] [|] [|] [|] [|]];
    cbn; rewrite IH; reflexivity.
Qed.

Lemma utf8_printable_head (c : ascii) (r : string) :
  printable c = true ->
  exists b : byte,
    str_encode_utf8 (String c r) = b :: str_encode_utf8 r /\
    (Byte.to_N b =? 0)%N = false.
Proof.
  intros Hc.
  destruct c as [[|] [|] [|] [|] [|] [|] [|] [|]];
    try discriminate Hc; eexists; split; reflexivity.
Qed.

Lemma wide_encoding_printable (s : string) :
  all_printable s = true -> json.wide_encoding (str_encode_utf8 s) = false.
Proof.
  destruct s as [|c1 s]; [reflexivity |].
  cbn [all_printable]. intros [H1 Hs]%andb_prop.
  destruct (utf8_printable_head c1 s H1) as (b1 & -> & Hb1).
  cbn [json.wide_encoding]. rewrite Hb1. cbn [orb].
  destruct s as [|c2 s]; [reflexivity |].
  cbn [all_printable] in Hs. apply andb_prop in Hs as [H2 _].
  now destruct (utf8_printable_head c2 s H2) as (b2 & -> & Hb2).
Qed.

(** ** The round trip through [json] *)

Lemma plain_serializable (v : pyval) : plain v -> json.unserializable v = None.
Proof.
  induction v as [|b|z|s|l IHl|d IHd|sh d _|p _] using pyval_nested_ind;
    intros Hv; try reflexivity.
  - inversion Hv as [| | | |? Hl|]; subst. cbn [json.unserializable].
    induction l as [|x tl IH]; [reflexivity |].
    inversion IHl as [|? ? Hx Htl]; inversion Hl as [|? ? Px Ptl]; subst.
    rewrite Hx by assumption. apply IH; auto using plain_List.
  - inversion Hv as [| | | | |? Hd Hnd]; subst. cbn [json.unserializable].
    clear Hv Hnd.
    induction d as [|[k x] tl IH]; [reflexivity |].
    inversion IHd as [|? ? Hx Htl]; inversion Hd as [|? ? Px Ptl]; subst.
    cbn [snd] in *.
    rewrite Hx by assumption. apply IH; auto.
  - inversion Hv.
  - inversion Hv.
Qed.

Lemma dumps_plain (v : pyval) : plain v -> json.dumps v = Ok (json.render v).
Proof. intros Hv. unfold json.dumps. now rewrite plain_serializable. Qed.

(** [json.loads(json.dumps(v).encode('utf8'))] is [v]. *)
Lemma loads_dumps (v : pyval) (text : string) :
  plain v -> json.dumps v = Ok text ->
  json.loads (str_encode_utf8 text) = Ok v.
Proof.
  intros Hv Hd. rewrite (dumps_plain v Hv) in Hd. injection Hd as <-.
  unfold json.loads.
  rewrite wide_encoding_printable by apply render_printable.
  rewrite utf8_decode_encode. cbn [bind].
  now apply loads_str_render.
Qed.

(** ** Integer arrays in [numpy] *)

Lemma size_seen_shape (sh : list nat) :
  np.size (seen_shape sh) = np.size sh.
Proof.
  induction sh as [|n r IH]; [reflexivity |].
  destruct n as [|n]; [reflexivity |].
  cbn [seen_shape]. unfold np.size in *. cbn [fold_right]. now rewrite IH.
Qed.

(** The nested lists of an array show the shape [np.array] finds. *)
Lemma tolist_seen_shape (sh : list nat) :
  forall d, np.tolist (seen_shape sh) d = np.tolist sh d.
Proof.
  induction sh as [|n r IH]; intros d; [reflexivity |].
  destruct n as [|n]; [reflexivity |].
  cbn [seen_shape np.tolist]. rewrite size_seen_shape. f_equal.
  apply map_ext. exact IH.
Qed.

Lemma seen_shape_positive (sh : list nat) :
  Forall (fun n => n <> 0) sh -> seen_shape sh = sh.
Proof.
  induction 1 as [|n r Hn _ IH]; [reflexivity |].
  destruct n as [|n]; [congruence |]. cbn [seen_shape]. now rewrite IH.
Qed.

Lemma shape_eqb_refl (sh : list nat) : np.shape_eqb sh sh = true.
Proof. unfold np.shape_eqb. now destruct (list_eq_dec Nat.eq_dec sh sh). Qed.

Lemma Forall_firstn_skipn (P : pyval -> Prop) (k : nat) (d : list pyval) :
  Forall P d -> Forall P (firstn k d) /\ Forall P (skipn k d).
Proof.
  intros Hd. rewrite <- (firstn_skipn k d) in Hd.
  now apply Forall_app in Hd.
Qed.

Lemma stack_rows_chunks (r r' : list nat) (k : nat) :
  (forall c, List.length c = k -> Forall int64_item c ->
             np.int_array (np.tolist r c) = Some (r', c)) ->
  forall (n : nat) (d : list pyval),
    List.length d = n * k -> Forall int64_item d ->
    np.stack_rows r' (map np.int_array (map (np.tolist r) (np.chunks n k d)))
    = Some d.
Proof.
  intros Hrow. induction n as [|n IH]; intros d Hlen Hd.
  - destruct d; [reflexivity | discriminate].
  - destruct (Forall_firstn_skipn _ k d Hd) as [Hhead Htail].
    cbn [np.chunks map np.stack_rows].
    rewrite Hrow by (rewrite ?length_firstn; assumption || lia).
    rewrite shape_eqb_refl, IH by (rewrite ?length_skipn; assumption || lia).
    cbn [option_map]. now rewrite firstn_skipn.
Qed.

Lemma length_chunks (n k : nat) (d : list pyval) :
  List.length (np.chunks n k d) = n.
Proof.
  revert d. induction n as [|n IH]; intros d; [reflexivity |].
  cbn [np.chunks List.length]. now rewrite IH.
Qed.

(** [np.array] finds an integer array back in its nested lists. *)
Lemma int_array_tolist (sh : list nat) :
  forall d, int64_array sh d ->
            np.int_array (np.tolist sh d) = Some (seen_shape sh, d).
Proof.
  induction sh as [|n r IH]; intros d [Hlen Hd].
  - destruct d as [|x [|y d]]; try discriminate Hlen.
    inversion Hd as [|? ? (z & -> & Hz) _]; subst.
    cbn [np.tolist np.int_array]. now rewrite Hz.
  - cbn [np.tolist np.int_array].
    change (np.size (n :: r)) with (n * np.size r) in Hlen.
    pose proof (stack_rows_chunks r (seen_shape r) (np.size r)
                  (fun c Hc Hi => IH c (conj Hc Hi)) n d Hlen Hd) as Hrows.
    destruct n as [|n].
    + destruct d; [reflexivity | discriminate].
    + unfold np.stack.
      remember (map np.int_array
                  (map (np.tolist r) (np.chunks (S n) (np.size r) d)))
        as rows eqn:Erows.
      assert (Hn : List.length rows = S n)
        by (subst rows; now rewrite !length_map, length_chunks).
      destruct rows as [|row rows']; [discriminate |].
      cbn [np.chunks map] in Erows. injection Erows as Erow _.
      rewrite (IH (firstn (np.size r) d)) in Erow.
      * subst row. rewrite Hrows, Hn. reflexivity.
      * split; [rewrite length_firstn; lia |].
        now apply Forall_firstn_skipn.
Qed.

Lemma array_of_int_array (oa : pyval -> result np.ndarray) (v : pyval)
    (a : np.ndarray) :
  np.int_array v = Some a -> np.array oa v = Ok a.
Proof.
  intros H. destruct v; cbn [np.array]; try rewrite H; try reflexivity.
  discriminate H.
Qed.

Lemma shape_eqb_eq (s1 s2 : list nat) : np.shape_eqb s1 s2 = true -> s1 = s2.
Proof.
  unfold np.shape_eqb. now destruct (list_eq_dec Nat.eq_dec s1 s2).
Qed.

Lemma chunks_app (n k : nat) (row rest : list pyval) :
  List.length row = k ->
  np.chunks (S n) k (row ++ rest) = row :: np.chunks n k rest.
Proof.
  intros Hk. cbn [np.chunks].
  rewrite firstn_app, skipn_app, Hk, Nat.sub_diag.
  rewrite <- Hk at 1. rewrite firstn_all, <- Hk, skipn_all.
  cbn [firstn skipn app]. now rewrite app_nil_r.
Qed.

Lemma stack_rows_inv (s0 : list nat) (l : list pyval) :
  Forall reads_as_array l ->
  forall d,
    np.stack_rows s0 (map np.int_array l) = Some d ->
    map (np.tolist s0) (np.chunks (List.length l) (np.size s0) d) = l /\
    List.length d = List.length l * np.size s0 /\
    Forall int64_item d.
Proof.
  induction 1 as [|x tl Hx _ IH]; intros d Hd.
  - injection Hd as <-. now repeat split.
  - cbn [map np.stack_rows] in Hd.
    destruct (np.int_array x) as [[s' dx] |] eqn:Ex; [| discriminate].
    destruct (np.shape_eqb s0 s') eqn:Es; [| discriminate].
    apply shape_eqb_eq in Es. subst s'.
    destruct (np.stack_rows s0 (map np.int_array tl)) as [dtl |] eqn:Etl;
      [| discriminate].
    injection Hd as <-.
    destruct (Hx s0 dx Ex) as [Hlist [Hlen Hitems]].
    destruct (IH dtl eq_refl) as [Hmap [Hlentl Hitemstl]].
    cbn [List.length]. rewrite chunks_app by assumption.
    cbn [map]. rewrite Hlist, Hmap.
    repeat split.
    + rewrite length_app. lia.
    + apply Forall_app. now split.
Qed.

(** The nested lists of integers [np.array] accepts are those of the array
    it returns. *)
Lemma int_array_inv (v : pyval) : reads_as_array v.
Proof.
  induction v as [|b|z|s|l IHl|d IHd|sh d _|p _] using pyval_nested_ind;
    intros sh' d' H; try discriminate H.
  - cbn [np.int_array] in H.
    destruct (np.is_int64 z) eqn:Hz; [| discriminate].
    injection H as <- <-. split; [reflexivity |].
    split; [reflexivity |]. constructor; [| constructor]. now exists z.
  - cbn [np.int_array] in H. unfold np.stack in H.
    remember (map np.int_array l) as rows eqn:Erows.
    destruct rows as [|[[s0 dx] |] rows']; [| | discriminate].
    + destruct l; [| discriminate]. injection H as <- <-. now repeat split.
    + rewrite Erows in H.
      destruct (np.stack_rows s0 (map np.int_array l)) as [dd |] eqn:Estack;
        [| discriminate].
      cbn [option_map] in H. injection H as <- <-.
      rewrite length_map.
      destruct (stack_rows_inv s0 l IHl dd Estack) as [Hm [Hlen Hit]].
      cbn [np.tolist]. rewrite Hm.
      split; [reflexivity |]. split; [| assumption].
      change (np.size (List.length l :: s0))
        with (List.length l * np.size s0). exact Hlen.
Qed.

(** A numeric array converts, and its nested lists are its value. *)
Lemma numeric_array_tolist (oa : pyval -> result np.ndarray) (v : pyval) :
  numeric_array v ->
  exists sh d,
    np.array oa v = Ok (sh, d) /\ int64_array sh d /\
    np.tolist sh d = value_of v.
Proof.
  destruct v; cbn [numeric_array]; try contradiction.
  - intros [[sh d] Ha]. exists sh, d.
    destruct (int_array_inv _ sh d Ha) as [Hl Hi].
    split; [now apply array_of_int_array |].
    split; [exact Hi | exact Hl].
  - intros Hi. exists shape, data.
    split; [reflexivity | split; [exact Hi | reflexivity]].
Qed.

Lemma plain_tolist (sh : list nat) :
  forall d, Forall plain d -> plain (np.tolist sh d).
Proof.
  induction sh as [|n r IH]; intros d Hd.
  - destruct Hd; [constructor | assumption].
  - cbn [np.tolist]. constructor.
    generalize (np.size r) as k. intros k. revert d Hd.
    induction n as [|n IHn]; intros d Hd; [constructor |].
    cbn [np.chunks map].
    destruct (Forall_firstn_skipn _ k d Hd) as [H1 H2].
    constructor; [now apply IH | now apply IHn].
Qed.

Lemma int64_items_plain (d : list pyval) :
  Forall int64_item d -> Forall plain d.
Proof. apply Forall_impl. intros x (z & -> & _). constructor. Qed.

Lemma int64_vector (l : list Z) :
  forallb np.is_int64 l = true ->
  int64_array [List.length l] (map PyInt l).
Proof.
  intros H. split.
  - rewrite length_map. unfold np.size. cbn [fold_right]. lia.
  - rewrite forallb_forall in H. apply Forall_forall.
    intros x [z [<- Hz]]%in_map_iff. exists z. auto.
Qed.

(** ** The HTTP client *)

(** The stock client's [get], in one equation. *)
Lemma urllib_get_unfold (url method : string)
    (headers : list (string * string)) (data : bytes) (w : world) :
  UrllibRequestWrapper.get url method headers data w
  = (match remote w (mkRequest url method headers data) with
     | Ok body => json.loads body
     | Raise e => Raise e
     end,
     mkWorld (remote w)
       (opened w ++ [mkRequest url method headers data])).
Proof.
  unfold UrllibRequestWrapper.get, io_bind, urlopen_read, io_lift, io_ret.
  destruct (remote w (mkRequest url method headers data)) as [body | e];
    [| reflexivity].
  destruct (json.loads body); reflexivity.
Qed.

(** C8. For every url, method, headers and data, [UrllibRequestWrapper.get]
    builds one request from exactly these four arguments and opens it; it
    returns the JSON-parsed body of the response, and when opening it or
    parsing the body raises, the same exception reaches the caller: no
    default or empty value stands in for it. *)
Theorem urllib_get_propagates (url method : string)
    (headers : list (string * string)) (data : bytes) (w : world) :
  let req := mkRequest url method headers data in
  let run := UrllibRequestWrapper.get url method headers data w in
  opened (snd run) = opened w ++ [req] /\
  fst run = (body <- remote w req ;; json.loads body) /\
  (forall e, remote w req = Raise e -> fst run = Raise e) /\
  (forall body e,
     remote w req = Ok body -> json.loads body = Raise e ->
     fst run = Raise e) /\
  (forall body v,
     remote w req = Ok body -> json.loads body = Ok v -> fst run = Ok v).
Proof.
  intros req run. unfold run. rewrite urllib_get_unfold. fold req.
  cbn [fst snd opened]. repeat split.
  - intros e He. now rewrite He.
  - intros body e Hb He. now rewrite Hb.
  - intros body v Hb Hv. now rewrite Hb.
Qed.

(** An unreachable host: the transport error is what [get] raises. *)
Lemma urllib_get_propagates_witness :
  fst (UrllibRequestWrapper.get example_url "GET" [] [] unreachable)
  = Raise (URLError "unreachable").
Proof.
  apply (urllib_get_propagates example_url "GET" [] [] unreachable).
  reflexivity.
Defined.

(** C10. For every url and files, [UrllibRequestWrapper.post] returns
    [None] and leaves the network as it was: it opens no request. *)
Theorem urllib_post_does_nothing (url : string) (files : pyval) (w : world) :
  UrllibRequestWrapper.post url files w = (Ok PyNone, w) /\
  opened (snd (UrllibRequestWrapper.post url files w)) = opened w.
Proof. split; reflexivity. Qed.

(** ** The abstract methods *)

(** C6, as the code has it.  The bodies of the decoder's [decode] and of
    the encoder's [encode] raise [NotImplementedError] whenever they run,
    called on the class or reached through [super()].
    The bodies of the client abstraction's [post] and [get] are empty:
    when they run they return [None] and raise nothing.  None of the four
    runs on an instance of a subclass that does not override it: the
    three classes are abstract, and instantiating a subclass that leaves
    one of these methods abstract raises [TypeError]; a subclass that
    overrides them has instances, with the methods it gave. *)
Theorem abstract_method_stubs :
  (forall x,
     JSONDataBodyDecoder.decode x
     = Raise (NotImplementedError
         "TODO: inherit from the `JSONDataBodyDecoder` class and implement this method.")) /\
  (forall x,
     JSONDataResponseEncoder.encode x
     = Raise (NotImplementedError
         "TODO: inherit from the `JSONDataResponseEncoder` class and implement this method.")) /\
  (forall host files w, RequestWrapper.post host files w = (Ok PyNone, w)) /\
  (forall url method headers data w,
     RequestWrapper.get url method headers data w = (Ok PyNone, w)) /\
  (exists msg,
     JSONDataBodyDecoder.subclass None = Raise (TypeError msg)) /\
  (exists msg,
     JSONDataResponseEncoder.subclass None = Raise (TypeError msg)) /\
  (forall g, exists msg,
     RequestWrapper.subclass None g = Raise (TypeError msg)) /\
  (forall p, exists msg,
     RequestWrapper.subclass p None = Raise (TypeError msg)) /\
  (forall f,
     JSONDataBodyDecoder.subclass (Some f) = Ok (JSONDataBodyDecoder.mk f)) /\
  (forall f,
     JSONDataResponseEncoder.subclass (Some f)
     = Ok (JSONDataResponseEncoder.mk f)) /\
  (forall p g,
     RequestWrapper.subclass (Some p) (Some g) = Ok (RequestWrapper.mk p g)).
Proof.
  repeat split; try (eexists; reflexivity).
  - intros g. destruct g; eexists; reflexivity.
  - intros p. destruct p; eexists; reflexivity.
Qed.

(** C6 fails for the client abstraction, and for an instance of any of
    the three classes.  The inherited [get] and [post], called on the
    class, return [None]; a client whose [get] and [post] hand over to
    them through [super()] has instances, and the two calls return [None];
    and a subclass that overrides nothing raises [TypeError] when it is
    instantiated, so that no stub runs on an instance of it. *)
Lemma client_stub_returns_none :
  RequestWrapper.get example_url "GET" [] [] unreachable
  = (Ok PyNone, unreachable) /\
  RequestWrapper.post example_url PyNone unreachable
  = (Ok PyNone, unreachable) /\
  (exists c : RequestWrapper.t,
     RequestWrapper.subclass
       (Some (fun host files => RequestWrapper.post host files))
       (Some (fun url method headers data =>
                RequestWrapper.get url method headers data))
     = Ok c /\
     RequestWrapper.get_method c example_url "GET" [] [] unreachable
     = (Ok PyNone, unreachable) /\
     RequestWrapper.post_method c example_url PyNone unreachable
     = (Ok PyNone, unreachable)) /\
  RequestWrapper.subclass None None
  = Raise (TypeError
             "Can't instantiate abstract class with abstract methods get, post") /\
  JSONDataBodyDecoder.subclass None
  = Raise (TypeError
             "Can't instantiate abstract class with abstract method decode") /\
  JSONDataResponseEncoder.subclass None
  = Raise (TypeError
             "Can't instantiate abstract class with abstract method encode").
Proof.
  split; [reflexivity |].
  split; [reflexivity |].
  split; [| repeat split].
  eexists. split; [reflexivity | split; reflexivity].
Qed.

(** ** The remote caller *)

(** C5. For every input, the direct [transform] of the remote caller raises
    [NotImplementedError] with the message ['must be used inside a
    pipeline'] and returns no value. *)
Theorem direct_transform_not_implemented (self : RestAPICaller.t)
    (data_inputs : pyval) :
  RestAPICaller.transform self data_inputs
  = Raise (NotImplementedError "must be used inside a pipeline") /\
  (forall v, RestAPICaller.transform self data_inputs <> Ok v).
Proof. split; [reflexivity | discriminate]. Qed.

Section Caller.
Variable object_array : pyval -> result np.ndarray.

Lemma array_tolist_ndarray (sh : list nat) (d : list pyval) :
  RestAPICaller.array_tolist object_array (PyArray sh d)
  = Ok (np.tolist sh d).
Proof. reflexivity. Qed.

Lemma array_of_tolist (sh : list nat) (d : list pyval) :
  int64_array sh d ->
  np.array object_array (np.tolist sh d) = Ok (seen_shape sh, d).
Proof.
  intros H. apply array_of_int_array. now apply int_array_tolist.
Qed.

(** The request body of an envelope of numeric arrays, as a value. *)
Lemma plain_data_dict (path : string) (sd se sc : list nat)
    (d e c : list pyval) (z : Z) :
  int64_array sd d -> int64_array se e -> int64_array sc c ->
  plain (PyDict [("path", PyStr path);
                 ("data_inputs", np.tolist sd d);
                 ("expected_outputs", np.tolist se e);
                 ("current_ids", np.tolist sc c);
                 ("summary_id", PyInt z)]).
Proof.
  intros [_ Hd] [_ He] [_ Hc].
  constructor.
  - repeat constructor; cbn [snd];
      apply plain_tolist; now apply int64_items_plain.
  - cbn [map fst].
    repeat (constructor; [cbn [In]; intuition discriminate |]).
    constructor.
Qed.

(** What the transform does once the request body is made. *)
Lemma transform_with_body (self : RestAPICaller.t) (env : DataContainer)
    (ctx : ExecutionContext) (di eo ci : pyval) (w : world) :
  RestAPICaller.array_tolist object_array (data_inputs env) = Ok di ->
  RestAPICaller.array_tolist object_array (expected_outputs env) = Ok eo ->
  RestAPICaller.array_tolist object_array (current_ids env) = Ok ci ->
  let data_dict :=
    PyDict [("path", PyStr (get_path ctx false));
            ("data_inputs", di);
            ("expected_outputs", eo);
            ("current_ids", ci);
            ("summary_id", summary_id env)] in
  json.unserializable data_dict = None ->
  RestAPICaller._transform_data_container object_array self env ctx w
  = match RestAPICaller.getattr_get (RestAPICaller.request self) with
    | Raise e => (Raise e, w)
    | Ok get =>
        match get (RestAPICaller.url self) (RestAPICaller.method self)
                [("content-type", "application/json")]
                (str_encode_utf8 (json.render data_dict)) w with
        | (Raise e, w') => (Raise e, w')
        | (Ok results, w') =>
            ((sid <- RestAPICaller.array_of_item object_array results
                       "summary_id" ;;
              ci' <- RestAPICaller.array_of_item object_array results
                       "current_ids" ;;
              di' <- RestAPICaller.array_of_item object_array results
                       "data_inputs" ;;
              eo' <- RestAPICaller.array_of_item object_array results
                       "expected_outputs" ;;
              Ok (mkDataContainer sid ci' di' eo')), w')
        end
    end.
Proof.
  intros Hdi Heo Hci data_dict Hser.
  unfold RestAPICaller._transform_data_container, io_bind, io_lift.
  rewrite Hdi, Heo, Hci. cbn [bind].
  fold data_dict. unfold json.dumps. rewrite Hser. cbn [bind].
  destruct (RestAPICaller.getattr_get (RestAPICaller.request self));
    reflexivity.
Qed.


(** C4, as the code has it.  When the caller holds a client object, the
    three arrays of the envelope convert to nested lists and the object of
    the five keys [path], [data_inputs], [expected_outputs], [current_ids]
    and [summary_id] is serialisable, the batch-context transform calls the
    client's [get] once: with the configured URL, the configured method,
    the header [content-type: application/json] and, as body, the UTF-8
    bytes of the JSON text of that object, whose arrays are the nested
    lists and whose [summary_id] is the envelope's own.  The network after
    the transform is the network after that call, and an exception of the
    call is the transform's; with the stock client exactly one request is
    opened.  The method is [GET] when none is given. *)
Theorem transform_sends_one_request (self : RestAPICaller.t)
    (o : RequestWrapper.t) (env : DataContainer) (ctx : ExecutionContext)
    (di eo ci : pyval) (w : world) :
  RestAPICaller.request self = RestAPICaller.client_object o ->
  RestAPICaller.array_tolist object_array (data_inputs env) = Ok di ->
  RestAPICaller.array_tolist object_array (expected_outputs env) = Ok eo ->
  RestAPICaller.array_tolist object_array (current_ids env) = Ok ci ->
  let data_dict :=
    PyDict [("path", PyStr (get_path ctx false));
            ("data_inputs", di);
            ("expected_outputs", eo);
            ("current_ids", ci);
            ("summary_id", summary_id env)] in
  json.unserializable data_dict = None ->
  let body := str_encode_utf8 (json.render data_dict) in
  let headers := [("content-type", "application/json")] in
  let call :=
    RequestWrapper.get_method o (RestAPICaller.url self)
      (RestAPICaller.method self) headers body w in
  let run :=
    RestAPICaller._transform_data_container object_array self env ctx w in
  json.dumps data_dict = Ok (json.render data_dict) /\
  snd run = snd call /\
  (forall e, fst call = Raise e -> fst run = Raise e) /\
  (RequestWrapper.get_method o = UrllibRequestWrapper.get ->
   opened (snd run)
   = opened w ++ [mkRequest (RestAPICaller.url self)
                    (RestAPICaller.method self) headers body]) /\
  (forall u r, RestAPICaller.method (RestAPICaller.__init__ u None r)
               = "GET").
Proof.
  intros Hclient Hdi Heo Hci data_dict Hser body headers call run.
  assert (Hrun : run = match call with
                       | (Raise e, w') => (Raise e, w')
                       | (Ok results, w') =>
                           ((sid <- RestAPICaller.array_of_item object_array
                                      results "summary_id" ;;
                             ci' <- RestAPICaller.array_of_item object_array
                                      results "current_ids" ;;
                             di' <- RestAPICaller.array_of_item object_array
                                      results "data_inputs" ;;
                             eo' <- RestAPICaller.array_of_item object_array
                                      results "expected_outputs" ;;
                             Ok (mkDataContainer sid ci' di' eo')), w')
                       end).
  { unfold run.
    rewrite (transform_with_body self env ctx di eo ci w Hdi Heo Hci Hser).
    rewrite Hclient. reflexivity. }
  assert (Hsnd : snd run = snd call)
    by (rewrite Hrun; destruct call as [[results | e] w']; reflexivity).
  split; [| split; [| split; [| split]]].
  - unfold json.dumps. now rewrite Hser.
  - exact Hsnd.
  - intros e He. rewrite Hrun. destruct call as [[results | e'] w'];
      cbn [fst] in *; congruence.
  - intros Hstock. rewrite Hsnd. unfold call.
    rewrite Hstock, urllib_get_unfold. reflexivity.
  - reflexivity.
Qed.

(** C7, as the code has it.  A caller built without a client holds the
    module [urllib.request], which has no [get].  Its batch-context
    transform never returns an envelope and leaves the network as it was.
    It raises what making the request body raises when the arrays do not
    convert or the object is not serialisable, and [AttributeError]
    otherwise. *)
Theorem default_client_fails (url : string) (method : option string)
    (env : DataContainer) (ctx : ExecutionContext) (w : world) :
  let self := RestAPICaller.__init__ url method None in
  let run :=
    RestAPICaller._transform_data_container object_array self env ctx w in
  RestAPICaller.request self = RestAPICaller.urllib_request /\
  RestAPICaller.getattr_get (RestAPICaller.request self)
  = Raise (AttributeError "get") /\
  snd run = w /\
  fst run
  = (di <- RestAPICaller.array_tolist object_array (data_inputs env) ;;
     eo <- RestAPICaller.array_tolist object_array (expected_outputs env) ;;
     ci <- RestAPICaller.array_tolist object_array (current_ids env) ;;
     _ <- json.dumps (PyDict [("path", PyStr (get_path ctx false));
                              ("data_inputs", di);
                              ("expected_outputs", eo);
                              ("current_ids", ci);
                              ("summary_id", summary_id env)]) ;;
     Raise (AttributeError "get")) /\
  (forall out, fst run <> Ok out).
Proof.
  intros self run.
  assert (Hrun : run
    = ((di <- RestAPICaller.array_tolist object_array (data_inputs env) ;;
        eo <- RestAPICaller.array_tolist object_array
                (expected_outputs env) ;;
        ci <- RestAPICaller.array_tolist object_array (current_ids env) ;;
        _ <- json.dumps (PyDict [("path", PyStr (get_path ctx false));
                                 ("data_inputs", di);
                                 ("expected_outputs", eo);
                                 ("current_ids", ci);
                                 ("summary_id", summary_id env)]) ;;
        Raise (AttributeError "get")), w)).
  { unfold run, RestAPICaller._transform_data_container, io_bind, io_lift.
    destruct (RestAPICaller.array_tolist object_array (data_inputs env));
      [| reflexivity].
    destruct (RestAPICaller.array_tolist object_array
                (expected_outputs env)); [| reflexivity].
    destruct (RestAPICaller.array_tolist object_array (current_ids env));
      [| reflexivity].
    cbn [bind].
    destruct (json.dumps _); reflexivity. }
  repeat split; try (rewrite Hrun; reflexivity).
  intros out. rewrite Hrun. cbn [fst].
  destruct (RestAPICaller.array_tolist object_array (data_inputs env));
    [| discriminate].
  destruct (RestAPICaller.array_tolist object_array (expected_outputs env));
    [| discriminate].
  destruct (RestAPICaller.array_tolist object_array (current_ids env));
    [| discriminate].
  cbn [bind]. destruct (json.dumps _); discriminate.
Qed.

End Caller.


(** The same example with the three fields given as Python lists. *)
Example echo_of_python_lists :
  fst (RestAPICaller._transform_data_container no_object_arrays
         (RestAPICaller.__init__ example_url None
            (Some (RestAPICaller.client_object echo_client)))
         (mkDataContainer (PyInt 7)
            (PyList [PyInt 0; PyInt 1; PyInt 2])
            (PyList [PyInt 1; PyInt 2; PyInt 3])
            (PyList [PyInt 4; PyInt 5; PyInt 6]))
         example_context unreachable)
  = Ok (mkDataContainer (PyArray [] [PyInt 7])
          (int_vector [0; 1; 2]%Z) (int_vector [1; 2; 3]%Z)
          (int_vector [4; 5; 6]%Z)).
Proof. reflexivity. Qed.


(** The example envelope through the stock client, no host answering: one
    request is opened, and the transport error is the transform's. *)
Lemma transform_sends_one_request_witness :
  let self :=
    RestAPICaller.__init__ example_url None
      (Some (RestAPICaller.client_object UrllibRequestWrapper.__init__)) in
  let run :=
    RestAPICaller._transform_data_container no_object_arrays self
      example_envelope example_context unreachable in
  let data_dict :=
    PyDict [("path", PyStr "RestAPICaller");
            ("data_inputs", PyList [PyInt 1; PyInt 2; PyInt 3]);
            ("expected_outputs", PyList [PyInt 4; PyInt 5; PyInt 6]);
            ("current_ids", PyList [PyInt 0; PyInt 1; PyInt 2]);
            ("summary_id", PyInt 7)] in
  json.unserializable data_dict = None /\
  opened (snd run)
  = [mkRequest example_url "GET" [("content-type", "application/json")]
       (str_encode_utf8 (json.render data_dict))] /\
  fst run = Raise (URLError "unreachable").
Proof.
  intros self run data_dict.
  destruct (transform_sends_one_request no_object_arrays self
              UrllibRequestWrapper.__init__ example_envelope example_context
              (PyList [PyInt 1; PyInt 2; PyInt 3])
              (PyList [PyInt 4; PyInt 5; PyInt 6])
              (PyList [PyInt 0; PyInt 1; PyInt 2])
              unreachable eq_refl eq_refl eq_refl eq_refl eq_refl)
    as (_ & _ & Hraise & Hopened & _).
  split; [reflexivity |].
  split; [exact (Hopened eq_refl) | exact (Hraise _ eq_refl)].
Defined.

(** C4 fails where no request body can be made or no client can be called:
    for an envelope whose summary is an array, as a remote stage returns
    it, the transform raises [TypeError] and opens no request; and for a
    caller built without a client it raises [AttributeError] and opens
    none either. *)
Lemma no_request_sent :
  let stock :=
    RestAPICaller.__init__ example_url None
      (Some (RestAPICaller.client_object UrllibRequestWrapper.__init__)) in
  let bare := RestAPICaller.__init__ example_url None None in
  let run1 :=
    RestAPICaller._transform_data_container no_object_arrays stock
      returned_envelope example_context unreachable in
  let run2 :=
    RestAPICaller._transform_data_container no_object_arrays bare
      example_envelope example_context unreachable in
  fst run1
  = Raise (TypeError "Object of type ndarray is not JSON serializable") /\
  opened (snd run1) = [] /\
  fst run2 = Raise (AttributeError "get") /\
  opened (snd run2) = [].
Proof. repeat split. Qed.

(** C7 fails for an envelope whose summary is an array: under the default
    construction the transform raises [TypeError], from [json.dumps], not
    [AttributeError]. *)
Lemma default_client_type_error :
  fst (RestAPICaller._transform_data_container no_object_arrays
         (RestAPICaller.__init__ example_url None None)
         returned_envelope example_context unreachable)
  = Raise (TypeError "Object of type ndarray is not JSON serializable") /\
  fst (RestAPICaller._transform_data_container no_object_arrays
         (RestAPICaller.__init__ example_url None None)
         returned_envelope example_context unreachable)
  <> Raise (AttributeError "get").
Proof. split; [reflexivity | discriminate]. Qed.

(** ** The REST binder *)

Lemma binder_transform_stages (ctx : flask.app_ctx)
    (dec : JSONDataBodyDecoder.t) (wrapped : BaseStep)
    (enc : JSONDataResponseEncoder.t) (route : option string) (x : pyval) :
  FlaskRestApiWrapper.transform ctx
    (FlaskRestApiWrapper.__init__ dec wrapped enc route) x
  = (decoded <- JSONDataBodyDecoder.decode_method dec x ;;
     processed <- step_transform wrapped ctx decoded ;;
     encoded <- JSONDataResponseEncoder.encode_method enc processed ;;
     flask.jsonify ctx encoded).
Proof.
  unfold FlaskRestApiWrapper.transform, FlaskRestApiWrapper.__init__,
    Pipeline.__init__.
  cbn [FlaskRestApiWrapper.steps Pipeline.transform step_transform
       JSONDataBodyDecoder.as_step JSONDataResponseEncoder.as_step].
  unfold JSONDataBodyDecoder.transform, JSONDataResponseEncoder.transform.
  destruct (JSONDataBodyDecoder.decode_method dec x) as [decoded |];
    [| reflexivity].
  cbn [bind].
  destruct (step_transform wrapped ctx decoded) as [processed |];
    [| reflexivity].
  cbn [bind].
  destruct (JSONDataResponseEncoder.encode_method enc processed)
    as [encoded |]; [| reflexivity].
  cbn [bind]. now destruct (flask.jsonify ctx encoded).
Qed.


(** C9. Construction of the REST binder from a decoder, a processing unit,
    an encoder and a route hands the pipeline the three stages in the
    order decoder, wrapped unit, encoder, and stores the route, which is
    ['/'] when none is given. *)
Theorem binder_construction (dec : JSONDataBodyDecoder.t)
    (wrapped : BaseStep) (enc : JSONDataResponseEncoder.t)
    (route : option string) :
  let binder := FlaskRestApiWrapper.__init__ dec wrapped enc route in
  FlaskRestApiWrapper.steps binder
  = [JSONDataBodyDecoder.as_step dec;
     wrapped;
     JSONDataResponseEncoder.as_step enc] /\
  FlaskRestApiWrapper.route binder
  = match route with Some r => r | None => "/" end /\
  FlaskRestApiWrapper.route
    (FlaskRestApiWrapper.__init__ dec wrapped enc None) = "/" /\
  (forall ctx x,
     FlaskRestApiWrapper.transform ctx binder x
     = (decoded <- JSONDataBodyDecoder.transform dec x ;;
        processed <- step_transform wrapped ctx decoded ;;
        JSONDataResponseEncoder.transform ctx enc processed)).
Proof.
  intros binder. repeat split.
  intros ctx x. unfold binder. rewrite binder_transform_stages.
  reflexivity.
Qed.




(** What serving a request with the class of [get_app] comes to, method by
    method. *)
Lemma serve_RESTfulRes (self : FlaskRestApiWrapper.t)
    (m : flask_restful.http_method) (request : flask.request) :
  flask_restful.serve (FlaskRestApiWrapper.RESTfulRes self) m request
  = match m with
    | flask_restful.GET | flask_restful.HEAD =>
        flask_restful.Handled
          (body <- flask.get_json request ;;
           FlaskRestApiWrapper.transform flask.inside self body)
    | flask_restful.OPTIONS => flask_restful.AutomaticOptions
    | _ => flask_restful.MethodNotAllowed
    end.
Proof. destruct m; reflexivity. Qed.

(** C3, as the code and the libraries have it.  The application that
    [get_app] returns has exactly one resource, registered at the binder's
    route.  Its class defines a handler for GET and for no other method:
    none for POST, PUT or DELETE; the GET handler applies the binder's
    composed transform to the JSON-parsed body of the request and returns
    the result.  GET is not the only method the route serves: a HEAD
    request runs the same handler, and with it the pipeline; Flask
    answers OPTIONS by itself; every other method is refused. *)
Theorem get_app_one_resource (self : FlaskRestApiWrapper.t) :
  exists res : flask_restful.Resource,
    flask_restful.resources (FlaskRestApiWrapper.get_app self)
    = [(FlaskRestApiWrapper.route self, res)] /\
    (exists h,
       flask_restful.handler res flask_restful.GET = Some h /\
       forall ctx request,
         h ctx request
         = (body <- flask.get_json request ;;
            FlaskRestApiWrapper.transform ctx self body)) /\
    flask_restful.handler res flask_restful.POST = None /\
    flask_restful.handler res flask_restful.PUT = None /\
    flask_restful.handler res flask_restful.DELETE = None /\
    (forall m, flask_restful.handler res m = None \/ m = flask_restful.GET) /\
    (forall m request,
       flask_restful.serve res m request
       = match m with
         | flask_restful.GET | flask_restful.HEAD =>
             flask_restful.Handled
               (body <- flask.get_json request ;;
                FlaskRestApiWrapper.transform flask.inside self body)
         | flask_restful.OPTIONS => flask_restful.AutomaticOptions
         | _ => flask_restful.MethodNotAllowed
         end).
Proof.
  exists (FlaskRestApiWrapper.RESTfulRes self).
  split; [reflexivity |].
  split; [eexists; split; [reflexivity | reflexivity] |].
  repeat split.
  - intros m. destruct m; auto.
  - intros m request. apply serve_RESTfulRes.
Qed.

(** C3 fails where it makes GET the only method: a HEAD request on the
    route of the example binder runs the GET handler, decoder, wrapped
    unit and encoder, and is not refused. *)
Lemma head_runs_pipeline :
  flask_restful.serve (FlaskRestApiWrapper.RESTfulRes example_binder)
    flask_restful.HEAD example_request
  = flask_restful.Handled (Ok (PyResponse example_body)) /\
  flask_restful.serve (FlaskRestApiWrapper.RESTfulRes example_binder)
    flask_restful.HEAD example_request
  <> flask_restful.MethodNotAllowed /\
  flask_restful.serve (FlaskRestApiWrapper.RESTfulRes example_binder)
    flask_restful.POST example_request
  = flask_restful.MethodNotAllowed.
Proof. repeat split. discriminate. Qed.

(** ** Examples of [json] text *)

Example dumps_example :
  json.dumps (PyList [PyInt 1; PyInt (-20); PyList []; PyNone; PyBool true])
  = Ok "[1, -20, [], null, true]".
Proof. reflexivity. Qed.

Example loads_example :
  json.loads_str " [1 , -20,[ ], null,true] "
  = Ok (PyList [PyInt 1; PyInt (-20); PyList []; PyNone; PyBool true]).
Proof. reflexivity. Qed.

Example loads_trailing_comma : json.loads_str "[1, 2,]" = Raise JSONDecodeError.
Proof. reflexivity. Qed.

Example tolist_matrix :
  np.tolist [2; 2] [PyInt 1; PyInt 2; PyInt 3; PyInt 4] = example_matrix.
Proof. reflexivity. Qed.

Example array_matrix :
  np.array no_object_arrays example_matrix
  = Ok ([2; 2], [PyInt 1; PyInt 2; PyInt 3; PyInt 4]).
Proof. reflexivity. Qed.

(** * Further properties of the code *)

(** ** The stock client *)

Lemma decode_blank (body : bytes) :
  Forall ws_byte body ->
  exists s : string,
    bytes_decode_utf8 body = Ok s /\ json.skip_ws s = EmptyString.
Proof.
  induction 1 as [|b r Hb _ (s & Hs & Hskip)].
  - now exists EmptyString.
  - destruct Hb as [-> | [-> | [-> | ->]]];
      cbn [bytes_decode_utf8]; rewrite Hs; cbn;
      eexists; (split; [reflexivity | exact Hskip]).
Qed.

Lemma wide_encoding_blank (body : bytes) :
  Forall ws_byte body -> json.wide_encoding body = false.
Proof.
  intros H. destruct H as [|b1 r Hb1 Hr]; [reflexivity |].
  cbn [json.wide_encoding].
  destruct Hb1 as [-> | [-> | [-> | ->]]]; cbn [orb];
    (destruct Hr as [|b2 r' Hb2 _]; [reflexivity |]);
    destruct Hb2 as [-> | [-> | [-> | ->]]]; reflexivity.
Qed.

(** [json.loads] finds no value in a blank text. *)
Lemma loads_blank (body : bytes) :
  Forall ws_byte body -> json.loads body = Raise JSONDecodeError.
Proof.
  intros H. unfold json.loads. rewrite (wide_encoding_blank body H).
  destruct (decode_blank body H) as (s & -> & Hskip).
  cbn [bind]. unfold json.loads_str. rewrite Hskip.
  replace (2 * String.length s + 2) with (S (2 * String.length s + 1))
    by lia.
  reflexivity.
Qed.

(** X7. When the response body is empty or holds white space only,
    [UrllibRequestWrapper.get] raises [JSONDecodeError], after opening its
    one request: an empty answer is not turned into [None]. *)
Theorem urllib_get_blank_body (url method : string)
    (headers : list (string * string)) (data : bytes) (w : world)
    (body : bytes) :
  remote w (mkRequest url method headers data) = Ok body ->
  Forall ws_byte body ->
  UrllibRequestWrapper.get url method headers data w
  = (Raise JSONDecodeError,
     mkWorld (remote w) (opened w ++ [mkRequest url method headers data])).
Proof.
  intros Hbody Hblank. rewrite urllib_get_unfold, Hbody.
  now rewrite loads_blank.
Qed.

Lemma urllib_get_blank_body_witness :
  Forall ws_byte [x20; x0a] /\
  fst (UrllibRequestWrapper.get example_url "GET" [] [] blank_server)
  = Raise JSONDecodeError.
Proof.
  assert (H : Forall ws_byte [x20; x0a]).
  { constructor; [left; reflexivity |].
    constructor; [right; right; left; reflexivity | constructor]. }
  split; [exact H |].
  now rewrite (urllib_get_blank_body example_url "GET" [] [] blank_server
                 [x20; x0a] eq_refl H).
Defined.

(** ** The remote caller and the reply *)

Lemma utf8_printable_byte (c : ascii) :
  printable c = true ->
  utf8_of_char c = [byte_of_ascii c] /\ (Byte.to_N (byte_of_ascii c) < 128)%N.
Proof.
  intros Hc.
  destruct c as [[|] [|] [|] [|] [|] [|] [|] [|]];
    try discriminate Hc; split; reflexivity.
Qed.

(** The bytes of a printable text are ASCII. *)
Lemma encode_printable_ascii (s : string) :
  all_printable s = true ->
  Forall (fun b => (Byte.to_N b < 128)%N) (str_encode_utf8 s).
Proof.
  induction s as [|c s IH]; [constructor |].
  cbn [all_printable str_encode_utf8]. intros [Hc Hs]%andb_prop.
  destruct (utf8_printable_byte c Hc) as [-> Hb].
  cbn [app]. constructor; auto.
Qed.

Section CallerReply.
Variable object_array : pyval -> result np.ndarray.

(** The transform, from the client's answer on. *)
Lemma transform_after_call (self : RestAPICaller.t) (o : RequestWrapper.t)
    (env : DataContainer) (ctx : ExecutionContext) (di eo ci : pyval)
    (w w' : world) (r : result pyval) :
  RestAPICaller.request self = RestAPICaller.client_object o ->
  RestAPICaller.array_tolist object_array (data_inputs env) = Ok di ->
  RestAPICaller.array_tolist object_array (expected_outputs env) = Ok eo ->
  RestAPICaller.array_tolist object_array (current_ids env) = Ok ci ->
  let data_dict :=
    PyDict [("path", PyStr (get_path ctx false));
            ("data_inputs", di);
            ("expected_outputs", eo);
            ("current_ids", ci);
            ("summary_id", summary_id env)] in
  json.unserializable data_dict = None ->
  RequestWrapper.get_method o (RestAPICaller.url self)
    (RestAPICaller.method self) json_headers
    (str_encode_utf8 (json.render data_dict)) w = (r, w') ->
  RestAPICaller._transform_data_container object_array self env ctx w
  = ((results <- r ;;
      sid <- RestAPICaller.array_of_item object_array results "summary_id" ;;
      ci' <- RestAPICaller.array_of_item object_array results "current_ids" ;;
      di' <- RestAPICaller.array_of_item object_array results "data_inputs" ;;
      eo' <- RestAPICaller.array_of_item object_array results
               "expected_outputs" ;;
      Ok (mkDataContainer sid ci' di' eo')), w').
Proof.
  intros Hclient Hdi Heo Hci data_dict Hser Hcall.
  rewrite (transform_with_body object_array self env ctx di eo ci w
             Hdi Heo Hci Hser).
  rewrite Hclient. cbn [RestAPICaller.getattr_get].
  fold data_dict. unfold json_headers in Hcall. rewrite Hcall.
  destruct r; reflexivity.
Qed.

Lemma array_of_item_found (d : list (string * pyval)) (k : string)
    (v : pyval) (a : np.ndarray) :
  dict_get d k = Some v -> np.array object_array v = Ok a ->
  RestAPICaller.array_of_item object_array (PyDict d) k = Ok (np.to_py a).
Proof.
  intros Hk Ha. unfold RestAPICaller.array_of_item. cbn [getitem].
  rewrite Hk. cbn [bind]. now rewrite Ha.
Qed.

Lemma array_of_item_missing (d : list (string * pyval)) (k : string) :
  dict_get d k = None ->
  RestAPICaller.array_of_item object_array (PyDict d) k = Raise (KeyError k).
Proof.
  intros Hk. unfold RestAPICaller.array_of_item. cbn [getitem].
  now rewrite Hk.
Qed.

Lemma array_of_item_is_array (r : pyval) (k : string) (v : pyval) :
  RestAPICaller.array_of_item object_array r k = Ok v ->
  exists sh d, v = PyArray sh d.
Proof.
  unfold RestAPICaller.array_of_item. intros H.
  destruct (getitem r k) as [item |]; [| discriminate].
  cbn [bind] in H.
  destruct (np.array object_array item) as [[sh d] |]; [| discriminate].
  injection H as <-. now exists sh, d.
Qed.

(** X3. The envelope the transform returns is made from the reply alone.
    When the client's [get] returns an object whose [summary_id],
    [current_ids], [data_inputs] and [expected_outputs] convert through
    [np.array], the transform returns the envelope of these four arrays,
    in the world the call left: no field of the input envelope is carried
    over, and the other keys of the reply ([path] among them) are not
    read. *)
Theorem reply_determines_envelope (self : RestAPICaller.t)
    (o : RequestWrapper.t) (env : DataContainer) (ctx : ExecutionContext)
    (di eo ci : pyval) (w w' : world) (d : list (string * pyval))
    (vs vc vd ve : pyval) (as_ ac ad ae : np.ndarray) :
  RestAPICaller.request self = RestAPICaller.client_object o ->
  RestAPICaller.array_tolist object_array (data_inputs env) = Ok di ->
  RestAPICaller.array_tolist object_array (expected_outputs env) = Ok eo ->
  RestAPICaller.array_tolist object_array (current_ids env) = Ok ci ->
  let data_dict :=
    PyDict [("path", PyStr (get_path ctx false));
            ("data_inputs", di);
            ("expected_outputs", eo);
            ("current_ids", ci);
            ("summary_id", summary_id env)] in
  json.unserializable data_dict = None ->
  RequestWrapper.get_method o (RestAPICaller.url self)
    (RestAPICaller.method self) json_headers
    (str_encode_utf8 (json.render data_dict)) w = (Ok (PyDict d), w') ->
  dict_get d "summary_id" = Some vs -> np.array object_array vs = Ok as_ ->
  dict_get d "current_ids" = Some vc -> np.array object_array vc = Ok ac ->
  dict_get d "data_inputs" = Some vd -> np.array object_array vd = Ok ad ->
  dict_get d "expected_outputs" = Some ve ->
  np.array object_array ve = Ok ae ->
  RestAPICaller._transform_data_container object_array self env ctx w
  = (Ok (mkDataContainer (np.to_py as_) (np.to_py ac) (np.to_py ad)
           (np.to_py ae)), w').
Proof.
  intros Hclient Hdi Heo Hci data_dict Hser Hcall Hs As Hc Ac Hd Ad He Ae.
  rewrite (transform_after_call self o env ctx di eo ci w w' _
             Hclient Hdi Heo Hci Hser Hcall).
  cbn [bind].
  rewrite (array_of_item_found d _ vs as_ Hs As),
          (array_of_item_found d _ vc ac Hc Ac),
          (array_of_item_found d _ vd ad Hd Ad),
          (array_of_item_found d _ ve ae He Ae).
  reflexivity.
Qed.

(** X1. When the client's [get] returns an object that lacks one of the
    four keys, the transform raises [KeyError] for the first key missing
    in the order [summary_id], [current_ids], [data_inputs],
    [expected_outputs] (the keys before it converting), in the world the
    call left: the request is not taken back and no field gets a
    default. *)
Theorem reply_missing_key (self : RestAPICaller.t)
    (o : RequestWrapper.t) (env : DataContainer) (ctx : ExecutionContext)
    (di eo ci : pyval) (w w' : world) (d : list (string * pyval)) :
  RestAPICaller.request self = RestAPICaller.client_object o ->
  RestAPICaller.array_tolist object_array (data_inputs env) = Ok di ->
  RestAPICaller.array_tolist object_array (expected_outputs env) = Ok eo ->
  RestAPICaller.array_tolist object_array (current_ids env) = Ok ci ->
  let data_dict :=
    PyDict [("path", PyStr (get_path ctx false));
            ("data_inputs", di);
            ("expected_outputs", eo);
            ("current_ids", ci);
            ("summary_id", summary_id env)] in
  json.unserializable data_dict = None ->
  RequestWrapper.get_method o (RestAPICaller.url self)
    (RestAPICaller.method self) json_headers
    (str_encode_utf8 (json.render data_dict)) w = (Ok (PyDict d), w') ->
  let run :=
    RestAPICaller._transform_data_container object_array self env ctx w in
  let converts (k : string) : Prop :=
    exists v a, dict_get d k = Some v /\ np.array object_array v = Ok a in
  (dict_get d "summary_id" = None ->
   run = (Raise (KeyError "summary_id"), w')) /\
  (converts "summary_id" -> dict_get d "current_ids" = None ->
   run = (Raise (KeyError "current_ids"), w')) /\
  (converts "summary_id" -> converts "current_ids" ->
   dict_get d "data_inputs" = None ->
   run = (Raise (KeyError "data_inputs"), w')) /\
  (converts "summary_id" -> converts "current_ids" ->
   converts "data_inputs" -> dict_get d "expected_outputs" = None ->
   run = (Raise (KeyError "expected_outputs"), w')).
Proof.
  intros Hclient Hdi Heo Hci data_dict Hser Hcall run converts.
  unfold run.
  rewrite (transform_after_call self o env ctx di eo ci w w' _
             Hclient Hdi Heo Hci Hser Hcall).
  cbn [bind]. unfold converts.
  repeat split.
  - intros H. now rewrite (array_of_item_missing d _ H).
  - intros (vs & a1 & Hs & A1) H.
    rewrite (array_of_item_found d _ vs a1 Hs A1). cbn [bind].
    now rewrite (array_of_item_missing d _ H).
  - intros (vs & a1 & Hs & A1) (vc & a2 & Hc & A2) H.
    rewrite (array_of_item_found d _ vs a1 Hs A1),
            (array_of_item_found d _ vc a2 Hc A2). cbn [bind].
    now rewrite (array_of_item_missing d _ H).
  - intros (vs & a1 & Hs & A1) (vc & a2 & Hc & A2) (vd & a3 & Hd & A3) H.
    rewrite (array_of_item_found d _ vs a1 Hs A1),
            (array_of_item_found d _ vc a2 Hc A2),
            (array_of_item_found d _ vd a3 Hd A3). cbn [bind].
    now rewrite (array_of_item_missing d _ H).
Qed.

(** X2. When the client's [get] returns a JSON value that is not an
    object ([None], a [bool], an [int], a [str] or a [list]), the
    transform raises [TypeError], from the subscript [results['summary_id']],
    in the world the call left. *)
Theorem reply_not_an_object (self : RestAPICaller.t)
    (o : RequestWrapper.t) (env : DataContainer) (ctx : ExecutionContext)
    (di eo ci : pyval) (w w' : world) (reply : pyval) :
  RestAPICaller.request self = RestAPICaller.client_object o ->
  RestAPICaller.array_tolist object_array (data_inputs env) = Ok di ->
  RestAPICaller.array_tolist object_array (expected_outputs env) = Ok eo ->
  RestAPICaller.array_tolist object_array (current_ids env) = Ok ci ->
  let data_dict :=
    PyDict [("path", PyStr (get_path ctx false));
            ("data_inputs", di);
            ("expected_outputs", eo);
            ("current_ids", ci);
            ("summary_id", summary_id env)] in
  json.unserializable data_dict = None ->
  RequestWrapper.get_method o (RestAPICaller.url self)
    (RestAPICaller.method self) json_headers
    (str_encode_utf8 (json.render data_dict)) w = (Ok reply, w') ->
  plain reply -> (forall d, reply <> PyDict d) ->
  exists msg : string,
    RestAPICaller._transform_data_container object_array self env ctx w
    = (Raise (TypeError msg), w').
Proof.
  intros Hclient Hdi Heo Hci data_dict Hser Hcall Hplain Hnot.
  rewrite (transform_after_call self o env ctx di eo ci w w' _
             Hclient Hdi Heo Hci Hser Hcall).
  cbn [bind]. unfold RestAPICaller.array_of_item.
  destruct Hplain; cbn [getitem bind]; eauto.
  now destruct (Hnot d).
Qed.

Lemma transform_returns_arrays (self : RestAPICaller.t)
    (env : DataContainer) (ctx : ExecutionContext) (w : world)
    (out : DataContainer) :
  fst (RestAPICaller._transform_data_container object_array self env ctx w)
  = Ok out ->
  (exists sh d, summary_id out = PyArray sh d) /\
  (exists sh d, current_ids out = PyArray sh d) /\
  (exists sh d, data_inputs out = PyArray sh d) /\
  (exists sh d, expected_outputs out = PyArray sh d).
Proof.
  unfold RestAPICaller._transform_data_container, io_bind, io_lift.
  destruct (_ <- RestAPICaller.array_tolist object_array (data_inputs env) ;; _)
    as [data |]; [| discriminate].
  destruct (RestAPICaller.getattr_get (RestAPICaller.request self))
    as [get |]; [| discriminate].
  destruct (get _ _ _ data w) as [[results |] w']; [| discriminate].
  destruct (RestAPICaller.array_of_item object_array results "summary_id")
    as [sid |] eqn:Es; [| discriminate].
  destruct (RestAPICaller.array_of_item object_array results "current_ids")
    as [cid |] eqn:Ec; [| discriminate].
  destruct (RestAPICaller.array_of_item object_array results "data_inputs")
    as [did |] eqn:Ed; [| discriminate].
  destruct (RestAPICaller.array_of_item object_array results
              "expected_outputs") as [eod |] eqn:Ee; [| discriminate].
  cbn [bind fst]. intros [= <-].
  cbn [summary_id current_ids data_inputs expected_outputs].
  repeat split; eapply array_of_item_is_array; eassumption.
Qed.

(** X4. Whatever the caller, the client, the envelope and the network,
    when the batch-context transform returns an envelope, each of its four
    fields is an [ndarray], the summary included: no field is a list or a
    scalar. *)
Theorem returned_fields_are_arrays (self : RestAPICaller.t)
    (env : DataContainer) (ctx : ExecutionContext) (w : world)
    (out : DataContainer) :
  fst (RestAPICaller._transform_data_container object_array self env ctx w)
  = Ok out ->
  (exists sh d, summary_id out = PyArray sh d) /\
  (exists sh d, current_ids out = PyArray sh d) /\
  (exists sh d, data_inputs out = PyArray sh d) /\
  (exists sh d, expected_outputs out = PyArray sh d).
Proof. apply transform_returns_arrays. Qed.

Lemma unserializable_array_summary (p : string) (di eo ci : pyval)
    (sh : list nat) (d : list pyval) :
  exists cls : string,
    json.unserializable
      (PyDict [("path", PyStr p);
               ("data_inputs", di);
               ("expected_outputs", eo);
               ("current_ids", ci);
               ("summary_id", PyArray sh d)]) = Some cls.
Proof.
  cbn [json.unserializable].
  destruct (json.unserializable di); [eauto |].
  destruct (json.unserializable eo); [eauto |].
  destruct (json.unserializable ci); eauto.
Qed.

(** X10. Whatever the client, when the request body cannot be made (one
    of the three conversions raises, in the order [data_inputs],
    [expected_outputs], [current_ids], or [json.dumps] raises), the
    transform raises that exception and leaves the network as it was: the
    client is not called. *)
Theorem no_body_no_request (self : RestAPICaller.t) (env : DataContainer)
    (ctx : ExecutionContext) (w : world) (e : exn) :
  (di <- RestAPICaller.array_tolist object_array (data_inputs env) ;;
   eo <- RestAPICaller.array_tolist object_array (expected_outputs env) ;;
   ci <- RestAPICaller.array_tolist object_array (current_ids env) ;;
   json.dumps (PyDict [("path", PyStr (get_path ctx false));
                       ("data_inputs", di);
                       ("expected_outputs", eo);
                       ("current_ids", ci);
                       ("summary_id", summary_id env)])) = Raise e ->
  RestAPICaller._transform_data_container object_array self env ctx w
  = (Raise e, w).
Proof.
  intros H.
  unfold RestAPICaller._transform_data_container, io_bind, io_lift.
  destruct (RestAPICaller.array_tolist object_array (data_inputs env));
    [| now injection H as ->].
  destruct (RestAPICaller.array_tolist object_array (expected_outputs env));
    [| now injection H as ->].
  destruct (RestAPICaller.array_tolist object_array (current_ids env));
    [| now injection H as ->].
  cbn [bind] in *. rewrite H. reflexivity.
Qed.

(** X5. Two remote stages do not chain: an envelope that the
    batch-context transform returned, given to the batch-context transform
    of any caller, makes it raise the [TypeError] of [json.dumps] and
    leaves the network as it was, since its [summary_id] is an array and
    goes to [json.dumps] unconverted. *)
Theorem returned_envelope_not_resendable (self : RestAPICaller.t)
    (env : DataContainer) (ctx : ExecutionContext) (w : world)
    (out : DataContainer) :
  fst (RestAPICaller._transform_data_container object_array self env ctx w)
  = Ok out ->
  forall (self' : RestAPICaller.t) (ctx' : ExecutionContext) (w' : world),
  exists cls : string,
    RestAPICaller._transform_data_container object_array self' out ctx' w'
    = (Raise (TypeError
                ("Object of type " ++ cls ++ " is not JSON serializable")%string),
       w').
Proof.
  intros Hout self' ctx' w'.
  destruct (transform_returns_arrays self env ctx w out Hout)
    as ((s1 & d1 & H1) & (s2 & d2 & H2) & (s3 & d3 & H3) & (s4 & d4 & H4)).
  destruct out as [sid cid did eod].
  cbn [summary_id current_ids data_inputs expected_outputs] in *. subst.
  destruct (unserializable_array_summary (get_path ctx' false)
              (np.tolist s3 d3) (np.tolist s4 d4) (np.tolist s2 d2) s1 d1)
    as [cls Hcls].
  exists cls.
  unfold RestAPICaller._transform_data_container, io_bind, io_lift.
  cbn [data_inputs expected_outputs current_ids summary_id
       RestAPICaller.array_tolist np.array bind fst snd].
  unfold json.dumps. rewrite Hcls. reflexivity.
Qed.

(** ** The remote caller over the stock client *)

Lemma array_tolist_numeric (v : pyval) :
  numeric_array v ->
  RestAPICaller.array_tolist object_array v = Ok (value_of v) /\
  exists sh d, int64_array sh d /\ value_of v = np.tolist sh d.
Proof.
  intros Hv.
  destruct (numeric_array_tolist object_array v Hv) as (sh & d & Ha & Hi & Hl).
  split.
  - unfold RestAPICaller.array_tolist. rewrite Ha. cbn [bind fst snd].
    now rewrite Hl.
  - exists sh, d. now split.
Qed.

(** The envelope read in the caller's own request body. *)
Lemma envelope_of_own_body (path : string) (sd se sc : list nat)
    (d e c : list pyval) (z : Z) :
  int64_array sd d -> int64_array se e -> int64_array sc c ->
  np.is_int64 z = true ->
  let body :=
    PyDict [("path", PyStr path);
            ("data_inputs", np.tolist sd d);
            ("expected_outputs", np.tolist se e);
            ("current_ids", np.tolist sc c);
            ("summary_id", PyInt z)] in
  (sid <- RestAPICaller.array_of_item object_array body "summary_id" ;;
   ci' <- RestAPICaller.array_of_item object_array body "current_ids" ;;
   di' <- RestAPICaller.array_of_item object_array body "data_inputs" ;;
   eo' <- RestAPICaller.array_of_item object_array body "expected_outputs" ;;
   Ok (mkDataContainer sid ci' di' eo'))
  = Ok (mkDataContainer (PyArray [] [PyInt z]) (PyArray (seen_shape sc) c)
          (PyArray (seen_shape sd) d) (PyArray (seen_shape se) e)).
Proof.
  intros Hd He Hc Hz body. unfold body, RestAPICaller.array_of_item.
  cbn [getitem dict_get String.eqb Ascii.eqb Bool.eqb bind].
  rewrite !(array_of_tolist object_array) by assumption.
  cbn [np.array np.int_array]. rewrite Hz. reflexivity.
Qed.

(** X9. Over the stock client, the one request the transform opens for
    an envelope of arrays of 64-bit integers with an integer summary
    carries a body of ASCII bytes that [json.loads] reads as the object of
    the five keys: the context's path, a text of characters up to U+00FF
    whose characters outside ASCII travel escaped, the three arrays as
    nested lists and the summary. *)
Theorem request_body_parses_back (self : RestAPICaller.t)
    (env : DataContainer) (ctx : ExecutionContext) (z : Z) (w : world) :
  RestAPICaller.request self
  = RestAPICaller.client_object UrllibRequestWrapper.__init__ ->
  summary_id env = PyInt z ->
  numeric_array (current_ids env) ->
  numeric_array (data_inputs env) ->
  numeric_array (expected_outputs env) ->
  exists body : bytes,
    opened (snd (RestAPICaller._transform_data_container object_array self
                   env ctx w))
    = opened w ++ [mkRequest (RestAPICaller.url self)
                     (RestAPICaller.method self) json_headers body] /\
    json.loads body
    = Ok (PyDict [("path", PyStr (get_path ctx false));
                  ("data_inputs", value_of (data_inputs env));
                  ("expected_outputs", value_of (expected_outputs env));
                  ("current_ids", value_of (current_ids env));
                  ("summary_id", PyInt z)]) /\
    Forall (fun b => (Byte.to_N b < 128)%N) body.
Proof.
  intros Hclient Hsum Hc Hd He.
  destruct (array_tolist_numeric _ Hc) as [Tc (sc & c & Ic & Vc)].
  destruct (array_tolist_numeric _ Hd) as [Td (sd & d & Id & Vd)].
  destruct (array_tolist_numeric _ He) as [Te (se & e & Ie & Ve)].
  pose proof (plain_data_dict (get_path ctx false) sd se sc d e c z
                Id Ie Ic) as Hplain.
  rewrite <- Vd, <- Ve, <- Vc, <- Hsum in Hplain.
  eexists. split; [| split].
  - erewrite (transform_after_call self
                UrllibRequestWrapper.__init__ env ctx _ _ _ w _ _
                Hclient Td Te Tc (plain_serializable _ Hplain)).
    2: { cbn [UrllibRequestWrapper.__init__ RequestWrapper.get_method].
         apply urllib_get_unfold. }
    cbn [snd opened]. reflexivity.
  - rewrite Hsum. rewrite Hsum in Hplain.
    exact (loads_dumps _ _ Hplain (dumps_plain _ Hplain)).
  - apply encode_printable_ascii, render_printable.
Qed.

(** X6. Over the stock client and a host that answers each request with
    the request's own body, the transform of an envelope of numeric arrays
    with an integer summary opens exactly one request, to the configured
    URL with the configured method and the JSON header, and returns an
    envelope whose four fields hold the values of the input envelope. *)
Theorem identity_server_round_trip (self : RestAPICaller.t)
    (env : DataContainer) (ctx : ExecutionContext) (z : Z) (w : world) :
  RestAPICaller.request self
  = RestAPICaller.client_object UrllibRequestWrapper.__init__ ->
  (forall req, remote w req = Ok (req_data req)) ->
  summary_id env = PyInt z -> np.is_int64 z = true ->
  numeric_array (current_ids env) ->
  numeric_array (data_inputs env) ->
  numeric_array (expected_outputs env) ->
  exists (out : DataContainer) (req : Request),
    RestAPICaller._transform_data_container object_array self env ctx w
    = (Ok out, mkWorld (remote w) (opened w ++ [req])) /\
    full_url req = RestAPICaller.url self /\
    req_method req = RestAPICaller.method self /\
    req_headers req = json_headers /\
    value_of (summary_id out) = value_of (summary_id env) /\
    value_of (current_ids out) = value_of (current_ids env) /\
    value_of (data_inputs out) = value_of (data_inputs env) /\
    value_of (expected_outputs out) = value_of (expected_outputs env).
Proof.
  intros Hclient Hremote Hsum Hz Hc Hd He.
  destruct (array_tolist_numeric _ Hc) as [Tc (sc & c & Ic & Vc)].
  destruct (array_tolist_numeric _ Hd) as [Td (sd & d & Id & Vd)].
  destruct (array_tolist_numeric _ He) as [Te (se & e & Ie & Ve)].
  pose proof (plain_data_dict (get_path ctx false) sd se sc d e c z
                Id Ie Ic) as Hplain.
  assert (Hplain' := Hplain).
  rewrite <- Vd, <- Ve, <- Vc, <- Hsum in Hplain'.
  eexists. eexists. split.
  - erewrite (transform_after_call self
                UrllibRequestWrapper.__init__ env ctx _ _ _ w _ _
                Hclient Td Te Tc (plain_serializable _ Hplain')).
    2: { cbn [UrllibRequestWrapper.__init__ RequestWrapper.get_method].
         apply urllib_get_unfold. }
    rewrite Hremote. cbn [req_data].
    rewrite Hsum, Vd, Ve, Vc.
    rewrite (loads_dumps _ _ Hplain (dumps_plain _ Hplain)). cbn [bind].
    rewrite (envelope_of_own_body _ sd se sc d e c z Id Ie Ic Hz).
    reflexivity.
  - cbn [full_url req_method req_headers summary_id current_ids data_inputs
         expected_outputs value_of].
    rewrite Hsum, Vc, Vd, Ve, !tolist_seen_shape. repeat split.
Qed.

End CallerReply.

(** ** The further properties on the examples *)

Lemma reply_missing_key_witness :
  fst (RestAPICaller._transform_data_container no_object_arrays
         (RestAPICaller.__init__ example_url None
            (Some (RestAPICaller.client_object
                     (constant_client partial_reply))))
         example_envelope example_context unreachable)
  = Raise (KeyError "current_ids").
Proof.
  destruct (reply_missing_key no_object_arrays
              (RestAPICaller.__init__ example_url None
                 (Some (RestAPICaller.client_object
                          (constant_client partial_reply))))
              (constant_client partial_reply)
              example_envelope example_context
              (PyList [PyInt 1; PyInt 2; PyInt 3])
              (PyList [PyInt 4; PyInt 5; PyInt 6])
              (PyList [PyInt 0; PyInt 1; PyInt 2])
              unreachable unreachable
              [("summary_id", PyInt 9); ("data_inputs", PyList [PyInt 8])]
              eq_refl eq_refl eq_refl eq_refl eq_refl eq_refl)
    as (_ & H & _).
  rewrite H; [reflexivity | | reflexivity].
  exists (PyInt 9), ([], [PyInt 9]). split; reflexivity.
Defined.

Lemma reply_not_an_object_witness :
  plain (PyList []) /\
  exists msg : string,
    RestAPICaller._transform_data_container no_object_arrays
      (RestAPICaller.__init__ example_url None
         (Some (RestAPICaller.client_object (constant_client (PyList [])))))
      example_envelope example_context unreachable
    = (Raise (TypeError msg), unreachable).
Proof.
  assert (Hplain : plain (PyList [])) by (constructor; constructor).
  split; [exact Hplain |].
  apply (reply_not_an_object no_object_arrays
           (RestAPICaller.__init__ example_url None
              (Some (RestAPICaller.client_object
                       (constant_client (PyList [])))))
           (constant_client (PyList []))
           example_envelope example_context
           (PyList [PyInt 1; PyInt 2; PyInt 3])
           (PyList [PyInt 4; PyInt 5; PyInt 6])
           (PyList [PyInt 0; PyInt 1; PyInt 2])
           unreachable unreachable (PyList [])
           eq_refl eq_refl eq_refl eq_refl eq_refl eq_refl Hplain).
  intros d; discriminate.
Defined.

Lemma reply_determines_envelope_witness :
  RestAPICaller._transform_data_container no_object_arrays
    (RestAPICaller.__init__ example_url None
       (Some (RestAPICaller.client_object (constant_client example_reply))))
    example_envelope example_context unreachable
  = (Ok (mkDataContainer (PyArray [] [PyInt 9]) (int_vector [5]%Z)
           (int_vector [8]%Z) (PyArray [0] [])), unreachable).
Proof.
  exact (reply_determines_envelope no_object_arrays
           (RestAPICaller.__init__ example_url None
              (Some (RestAPICaller.client_object
                       (constant_client example_reply))))
           (constant_client example_reply)
           example_envelope example_context
           (PyList [PyInt 1; PyInt 2; PyInt 3])
           (PyList [PyInt 4; PyInt 5; PyInt 6])
           (PyList [PyInt 0; PyInt 1; PyInt 2])
           unreachable unreachable
           [("predictions", PyList [PyInt 1]); ("summary_id", PyInt 9);
            ("current_ids", PyList [PyInt 5]);
            ("data_inputs", PyList [PyInt 8]);
            ("expected_outputs", PyList [])]
           (PyInt 9) (PyList [PyInt 5]) (PyList [PyInt 8]) (PyList [])
           ([], [PyInt 9]) ([1], [PyInt 5]) ([1], [PyInt 8]) ([0], [])
           eq_refl eq_refl eq_refl eq_refl eq_refl eq_refl
           eq_refl eq_refl eq_refl eq_refl eq_refl eq_refl eq_refl eq_refl).
Defined.

Lemma returned_fields_are_arrays_witness :
  let out :=
    mkDataContainer (PyArray [] [PyInt 7]) (int_vector [0; 1; 2]%Z)
      (int_vector [1; 2; 3]%Z) (int_vector [4; 5; 6]%Z) in
  fst (RestAPICaller._transform_data_container no_object_arrays
         (RestAPICaller.__init__ example_url None
            (Some (RestAPICaller.client_object echo_client)))
         example_envelope example_context unreachable)
  = Ok out /\
  exists sh d, summary_id out = PyArray sh d.
Proof.
  intros out.
  split; [reflexivity |].
  exact (proj1 (returned_fields_are_arrays no_object_arrays
                  (RestAPICaller.__init__ example_url None
                     (Some (RestAPICaller.client_object echo_client)))
                  example_envelope example_context unreachable out
                  eq_refl)).
Defined.

Lemma returned_envelope_not_resendable_witness :
  fst (RestAPICaller._transform_data_container no_object_arrays
         (RestAPICaller.__init__ example_url None
            (Some (RestAPICaller.client_object echo_client)))
         example_envelope example_context unreachable)
  = Ok returned_envelope /\
  exists cls : string,
    RestAPICaller._transform_data_container no_object_arrays
      (RestAPICaller.__init__ example_url None
         (Some (RestAPICaller.client_object echo_client)))
      returned_envelope example_context unreachable
    = (Raise (TypeError
                ("Object of type " ++ cls ++ " is not JSON serializable")%string),
       unreachable).
Proof.
  split; [reflexivity |].
  exact (returned_envelope_not_resendable no_object_arrays
           (RestAPICaller.__init__ example_url None
              (Some (RestAPICaller.client_object echo_client)))
           example_envelope example_context unreachable returned_envelope
           eq_refl
           (RestAPICaller.__init__ example_url None
              (Some (RestAPICaller.client_object echo_client)))
           example_context unreachable).
Defined.

Lemma no_body_no_request_witness :
  RestAPICaller._transform_data_container no_object_arrays
    (RestAPICaller.__init__ example_url None
       (Some (RestAPICaller.client_object echo_client)))
    returned_envelope example_context unreachable
  = (Raise (TypeError "Object of type ndarray is not JSON serializable"),
     unreachable).
Proof.
  exact (no_body_no_request no_object_arrays
           (RestAPICaller.__init__ example_url None
              (Some (RestAPICaller.client_object echo_client)))
           returned_envelope example_context unreachable
           (TypeError "Object of type ndarray is not JSON serializable")
           eq_refl).
Defined.

Lemma request_body_parses_back_witness :
  numeric_array (current_ids example_envelope) /\
  numeric_array (data_inputs example_envelope) /\
  numeric_array (expected_outputs example_envelope) /\
  exists body : bytes,
    opened (snd (RestAPICaller._transform_data_container no_object_arrays
                   (RestAPICaller.__init__ example_url None
                      (Some (RestAPICaller.client_object
                               UrllibRequestWrapper.__init__)))
                   example_envelope example_context unreachable))
    = [mkRequest example_url "GET" json_headers body] /\
    json.loads body
    = Ok (PyDict [("path", PyStr "RestAPICaller");
                  ("data_inputs", PyList [PyInt 1; PyInt 2; PyInt 3]);
                  ("expected_outputs", PyList [PyInt 4; PyInt 5; PyInt 6]);
                  ("current_ids", PyList [PyInt 0; PyInt 1; PyInt 2]);
                  ("summary_id", PyInt 7)]).
Proof.
  split; [exact (int64_vector [0; 1; 2]%Z eq_refl) |].
  split; [exact (int64_vector [1; 2; 3]%Z eq_refl) |].
  split; [exact (int64_vector [4; 5; 6]%Z eq_refl) |].
  destruct (request_body_parses_back no_object_arrays
              (RestAPICaller.__init__ example_url None
                 (Some (RestAPICaller.client_object
                          UrllibRequestWrapper.__init__)))
              example_envelope example_context 7 unreachable
              eq_refl eq_refl
              (int64_vector [0; 1; 2]%Z eq_refl)
              (int64_vector [1; 2; 3]%Z eq_refl)
              (int64_vector [4; 5; 6]%Z eq_refl))
    as (body & Hopened & Hloads & _).
  exists body. split; [exact Hopened | exact Hloads].
Defined.

Lemma identity_server_round_trip_witness :
  (forall req, remote identity_server req = Ok (req_data req)) /\
  np.is_int64 7 = true /\
  numeric_array (current_ids example_envelope) /\
  numeric_array (data_inputs example_envelope) /\
  numeric_array (expected_outputs example_envelope) /\
  exists (out : DataContainer) (req : Request),
    RestAPICaller._transform_data_container no_object_arrays
      (RestAPICaller.__init__ example_url None
         (Some (RestAPICaller.client_object UrllibRequestWrapper.__init__)))
      example_envelope example_context identity_server
    = (Ok out, mkWorld (remote identity_server) [req]) /\
    value_of (summary_id out) = PyInt 7 /\
    value_of (current_ids out) = PyList [PyInt 0; PyInt 1; PyInt 2] /\
    value_of (data_inputs out) = PyList [PyInt 1; PyInt 2; PyInt 3] /\
    value_of (expected_outputs out) = PyList [PyInt 4; PyInt 5; PyInt 6].
Proof.
  split; [reflexivity |].
  split; [reflexivity |].
  split; [exact (int64_vector [0; 1; 2]%Z eq_refl) |].
  split; [exact (int64_vector [1; 2; 3]%Z eq_refl) |].
  split; [exact (int64_vector [4; 5; 6]%Z eq_refl) |].
  destruct (identity_server_round_trip no_object_arrays
              (RestAPICaller.__init__ example_url None
                 (Some (RestAPICaller.client_object
                          UrllibRequestWrapper.__init__)))
              example_envelope example_context 7 identity_server
              eq_refl (fun req => eq_refl) eq_refl eq_refl
              (int64_vector [0; 1; 2]%Z eq_refl)
              (int64_vector [1; 2; 3]%Z eq_refl)
              (int64_vector [4; 5; 6]%Z eq_refl))
    as (out & req & Hrun & _ & _ & _ & Hs & Hc & Hd & He).
  exists out, req. repeat split; assumption.
Defined.
